(** * FileVault backend: upload/download mediation, verified against its source

    A shallow embedding of [src/routes/uploads.js], [src/middleware/auth.js]
    and the parts of [src/aws.js], [src/firebaseAdmin.js] and [src/server.js]
    they rely on.  JavaScript values are an inductive type, strings are
    sequences of UTF-16 code units, objects are finite maps, and the
    asynchronous handlers are programs of a state-and-exception monad whose
    state holds the Firestore collection, the S3 bucket and the trace of
    external calls. *)

From Stdlib Require Import ZArith Ascii String.
From stdpp Require Import base option list sorting strings gmap.

Set Warnings "-register-all".
Local Open Scope Z_scope.

(** ** JavaScript strings *)

Module JsString.

(** A JavaScript string is a sequence of UTF-16 code units. *)
Definition jsstring : Type := list N.

(** The code units of an ASCII (Latin-1) source literal. *)
Definition lit (s : string) : jsstring :=
  List.map N_of_ascii (list_ascii_of_string s).

(** [s.startsWith(p)] *)
Fixpoint startsWith (p s : jsstring) : bool :=
  match p, s with
  | [], _ => true
  | _ :: _, [] => false
  | a :: p', b :: s' => N.eqb a b && startsWith p' s'
  end.

(** [s.slice(n)] and [s.slice(0, n)] for a non-negative literal [n]. *)
Definition slice_from (n : nat) (s : jsstring) : jsstring := drop n s.
Definition slice_to (n : nat) (s : jsstring) : jsstring := take n s.

(** [s.split(c)] for a one-character separator: the pieces between the
    occurrences of [c]; never the empty array. *)
Fixpoint split (c : N) (s : jsstring) : list jsstring :=
  match s with
  | [] => [[]]
  | x :: r =>
      if N.eqb x c then [] :: split c r
      else match split c r with
           | h :: t => (x :: h) :: t
           | [] => [[x]]
           end
  end.

(** [a.pop()] read for its value: the last element of the array. *)
Definition pop (a : list jsstring) : jsstring := List.last a [].

(** [s.replace(/[^...]/g, r)] for a character class given as a predicate:
    every code unit outside the class is replaced by [r]. *)
Definition replace_outside (class : N → bool) (r : N) (s : jsstring) : jsstring :=
  List.map (λ c, if class c then c else r) s.

End JsString.
Export JsString.

(** ** [sanitizeFileName] and its character class *)

Definition slash : N := 47.
Definition backslash : N := 92.
Definition underscore : N := 95.

(** The class [a-zA-Z0-9.\-_] of the regular expression. *)
Definition allowed (c : N) : bool :=
  ((97 <=? c) && (c <=? 122))%N || ((65 <=? c) && (c <=? 90))%N
  || ((48 <=? c) && (c <=? 57))%N
  || N.eqb c 46 || N.eqb c 45 || N.eqb c 95.

(** [function sanitizeFileName(name = '')], on a string argument. *)
Definition sanitizeFileName (name : jsstring) : jsstring :=
  let onlyName := pop (split backslash (pop (split slash name))) in
  replace_outside allowed underscore onlyName.

(** ** [crypto.createHash('sha256').update(uid).digest('hex')] *)

Module Sha256.

(** 32-bit words are integers in [0, 2^32); additions wrap around. *)
Definition wrap (x : Z) : Z := x mod 2 ^ 32.
Definition add32 (x y : Z) : Z := wrap (x + y).
Definition rotr (n x : Z) : Z := Z.lor (Z.shiftr x n) (wrap (Z.shiftl x (32 - n))).
Definition not32 (x : Z) : Z := Z.lxor x 0xffffffff.

Definition Ch (x y z : Z) : Z := Z.lxor (Z.land x y) (Z.land (not32 x) z).
Definition Maj (x y z : Z) : Z :=
  Z.lxor (Z.lxor (Z.land x y) (Z.land x z)) (Z.land y z).
Definition Sigma0 (x : Z) : Z := Z.lxor (Z.lxor (rotr 2 x) (rotr 13 x)) (rotr 22 x).
Definition Sigma1 (x : Z) : Z := Z.lxor (Z.lxor (rotr 6 x) (rotr 11 x)) (rotr 25 x).
Definition sigma0 (x : Z) : Z := Z.lxor (Z.lxor (rotr 7 x) (rotr 18 x)) (Z.shiftr x 3).
Definition sigma1 (x : Z) : Z := Z.lxor (Z.lxor (rotr 17 x) (rotr 19 x)) (Z.shiftr x 10).

(** The constants of the standard are read off the first 64 primes: the
    round constants are the first 32 bits of the fractional parts of their
    cube roots, the initial hash value those of the square roots of the
    first eight. *)
Definition primes : list Z :=
  [ 2; 3; 5; 7; 11; 13; 17; 19; 23; 29; 31; 37; 41; 43; 47; 53;
    59; 61; 67; 71; 73; 79; 83; 89; 97; 101; 103; 107; 109; 113; 127; 131;
    137; 139; 149; 151; 157; 163; 167; 173; 179; 181; 191; 193; 197; 199;
    211; 223; 227; 229; 233; 239; 241; 251; 257; 263; 269; 271; 277; 281;
    283; 293; 307; 311 ].

(** The integer cube root, one bit at a time from bit [bits - 1] down. *)
Fixpoint cube_root_from (bits : nat) (n r : Z) : Z :=
  match bits with
  | O => r
  | S b =>
      let r' := r + 2 ^ Z.of_nat b in
      cube_root_from b n (if r' * r' * r' <=? n then r' else r)
  end.

Definition cube_root (n : Z) : Z := cube_root_from 40 n 0.

Definition K : list Z := List.map (λ p, wrap (cube_root (p * 2 ^ 96))) primes.

(** The eight working variables, also the chaining value. *)
Record regs := Regs { ra : Z; rb : Z; rc : Z; rd : Z; re : Z; rf : Z; rg : Z; rh : Z }.

Definition H0 : regs :=
  match List.map (λ p, wrap (Z.sqrt (p * 2 ^ 64))) (take 8 primes) with
  | [a; b; c; d; e; f; g; h] => Regs a b c d e f g h
  | _ => Regs 0 0 0 0 0 0 0 0
  end.

(** Padding: a 1 bit, zeros up to 56 mod 64, the bit length on 64 bits. *)
Definition be64 (n : Z) : list Z :=
  List.map (λ i, Z.land (Z.shiftr n (8 * i)) 255) [7; 6; 5; 4; 3; 2; 1; 0].

Definition pad (msg : list Z) : list Z :=
  let len := Z.of_nat (length msg) in
  msg ++ [128] ++ replicate (Z.to_nat ((55 - len) mod 64)) 0 ++ be64 (8 * len).

Fixpoint blocks (fuel : nat) (bs : list Z) : list (list Z) :=
  match fuel, bs with
  | S fuel', _ :: _ => take 64 bs :: blocks fuel' (drop 64 bs)
  | _, _ => []
  end.

(** Big-endian 32-bit words of a block. *)
Fixpoint words (bs : list Z) : list Z :=
  match bs with
  | b0 :: b1 :: b2 :: b3 :: r =>
      (b0 * 2 ^ 24 + b1 * 2 ^ 16 + b2 * 2 ^ 8 + b3) :: words r
  | _ => []
  end.

(** Message schedule, kept newest word first while it grows. *)
Fixpoint expand (n : nat) (rw : list Z) : list Z :=
  match n with
  | O => rw
  | S n' =>
      let w := add32 (add32 (sigma1 (nth 1 rw 0)) (nth 6 rw 0))
                     (add32 (sigma0 (nth 14 rw 0)) (nth 15 rw 0)) in
      expand n' (w :: rw)
  end.

Definition schedule (block : list Z) : list Z :=
  rev (expand 48 (rev (words block))).

Definition round (r : regs) (kw : Z * Z) : regs :=
  let t1 := add32 (add32 (add32 (rh r) (Sigma1 (re r))) (Ch (re r) (rf r) (rg r)))
                  (add32 (fst kw) (snd kw)) in
  let t2 := add32 (Sigma0 (ra r)) (Maj (ra r) (rb r) (rc r)) in
  Regs (add32 t1 t2) (ra r) (rb r) (rc r) (add32 (rd r) t1) (re r) (rf r) (rg r).

Definition compress (h : regs) (block : list Z) : regs :=
  let r := fold_left round (combine K (schedule block)) h in
  Regs (add32 (ra h) (ra r)) (add32 (rb h) (rb r)) (add32 (rc h) (rc r))
       (add32 (rd h) (rd r)) (add32 (re h) (re r)) (add32 (rf h) (rf r))
       (add32 (rg h) (rg r)) (add32 (rh h) (rh r)).

Definition be32 (w : Z) : list Z :=
  [ Z.land (Z.shiftr w 24) 255; Z.land (Z.shiftr w 16) 255;
    Z.land (Z.shiftr w 8) 255; Z.land w 255 ].

Definition digest_bytes (r : regs) : list Z :=
  be32 (ra r) ++ be32 (rb r) ++ be32 (rc r) ++ be32 (rd r)
  ++ be32 (re r) ++ be32 (rf r) ++ be32 (rg r) ++ be32 (rh r).

(** The 32-byte digest of a byte string. *)
Definition sha256 (msg : list Z) : list Z :=
  let padded := pad msg in
  digest_bytes (fold_left compress (blocks (length padded) padded) H0).

End Sha256.

(** *** Encodings around the hash *)

(** Node encodes a string passed to [update] as UTF-8: surrogate pairs
    become one four-byte sequence, a lone surrogate becomes U+FFFD. *)
Definition is_high_surrogate (u : N) : bool := ((0xD800 <=? u) && (u <=? 0xDBFF))%N.
Definition is_low_surrogate (u : N) : bool := ((0xDC00 <=? u) && (u <=? 0xDFFF))%N.

Definition utf8_of_code_point (cp : Z) : list Z :=
  if cp <? 0x80 then [cp]
  else if cp <? 0x800 then [192 + Z.shiftr cp 6; 128 + Z.land cp 63]
  else if cp <? 0x10000 then
    [224 + Z.shiftr cp 12; 128 + Z.land (Z.shiftr cp 6) 63; 128 + Z.land cp 63]
  else
    [240 + Z.shiftr cp 18; 128 + Z.land (Z.shiftr cp 12) 63;
     128 + Z.land (Z.shiftr cp 6) 63; 128 + Z.land cp 63].

Fixpoint utf8 (s : jsstring) : list Z :=
  match s with
  | [] => []
  | u :: r =>
      if is_high_surrogate u then
        match r with
        | v :: r' =>
            if is_low_surrogate v then
              utf8_of_code_point
                (0x10000 + (Z.of_N u - 0xD800) * 0x400 + (Z.of_N v - 0xDC00)) ++ utf8 r'
            else utf8_of_code_point 0xFFFD ++ utf8 r
        | [] => utf8_of_code_point 0xFFFD
        end
      else if is_low_surrogate u then utf8_of_code_point 0xFFFD ++ utf8 r
      else utf8_of_code_point (Z.of_N u) ++ utf8 r
  end.

(** [digest('hex')]: two lower-case hexadecimal digits per byte. *)
Definition hex_digit (n : Z) : N :=
  Z.to_N (if n <? 10 then 48 + n else 87 + n).

Definition hex_of_byte (b : Z) : jsstring :=
  [hex_digit (Z.land (Z.shiftr b 4) 15); hex_digit (Z.land b 15)].

Definition hex (bs : list Z) : jsstring := flat_map hex_of_byte bs.

Definition sha256_hex (s : jsstring) : jsstring := hex (Sha256.sha256 (utf8 s)).

(** [function getUserStorageId(uid)] *)
Definition getUserStorageId (uid : jsstring) : jsstring :=
  slice_to 32 (sha256_hex uid).

(** ** JavaScript values *)

(** The values that travel through the handlers: JSON from request bodies,
    Firestore field values, and the two Firestore objects the code creates
    or reads ([FieldValue.serverTimestamp()] and [Timestamp]).  Numbers that
    occur (sizes, seconds) are integer valued; [NaN] is kept because it is
    falsy.  A property that is absent reads as [JUndefined]. *)
Inductive JsVal : Type :=
| JUndefined
| JNull
| JBool (b : bool)
| JNum (n : Z)
| JNaN
| JStr (s : jsstring)
| JArray (elems : list JsVal)
| JObject (props : gmap string JsVal)
| JTimestamp (seconds nanoseconds : Z)
| JServerTimestamp.

Fixpoint JsVal_eq_dec (v w : JsVal) : Decision (v = w).
Proof.
  refine
    (match v, w with
     | JUndefined, JUndefined | JNull, JNull | JNaN, JNaN
     | JServerTimestamp, JServerTimestamp => left _
     | JBool x, JBool y => cast_if (decide (x = y))
     | JNum x, JNum y => cast_if (decide (x = y))
     | JStr x, JStr y => cast_if (decide (x = y))
     | JArray x, JArray y =>
         cast_if (@decide (x = y) (@list_eq_dec _ JsVal_eq_dec _ _))
     | JObject x, JObject y =>
         cast_if (@decide (x = y) (@gmap_eq_dec _ _ _ _ JsVal_eq_dec _ _))
     | JTimestamp s n, JTimestamp s' n' =>
         cast_if_and (decide (s = s')) (decide (n = n'))
     | _, _ => right _
     end); congruence.
Defined.

#[global] Instance JsVal_eq : EqDecision JsVal := JsVal_eq_dec.

(** A JavaScript object used as a record: property names to values. *)
Abbreviation JsObj := (gmap string JsVal).

(** [o.k]: the value of property [k], [undefined] when absent. *)
Definition prop (o : JsObj) (k : string) : JsVal := default JUndefined (o !! k).

(** Truthiness, as tested by [!v], [v || w] and [if (v)]. *)
Definition truthy (v : JsVal) : bool :=
  match v with
  | JUndefined | JNull | JNaN => false
  | JBool b => b
  | JNum n => negb (n =? 0)
  | JStr s => match s with [] => false | _ => true end
  | JArray _ | JObject _ | JTimestamp _ _ | JServerTimestamp => true
  end.

(** [v || w] *)
Definition js_or (v w : JsVal) : JsVal := if truthy v then v else w.

(** [v ?? w] *)
Definition js_nullish (v w : JsVal) : JsVal :=
  match v with JUndefined | JNull => w | _ => v end.

(** [v === w].  Two objects are equal only when they are the same
    reference; the objects compared here come from different sources (a
    stored document and a request), so they never are. *)
Definition strict_equal (v w : JsVal) : bool :=
  match v, w with
  | JUndefined, JUndefined | JNull, JNull => true
  | JBool x, JBool y => bool_decide (x = y)
  | JNum x, JNum y => bool_decide (x = y)
  | JStr x, JStr y => bool_decide (x = y)
  | _, _ => false
  end.

(** [v?.k] for the two property names read on [createdAt]. *)
Definition optional_prop (v : JsVal) (k : string) : JsVal :=
  match v with
  | JObject o => prop o k
  | JTimestamp s n =>
      if bool_decide (k = "seconds" ∨ k = "_seconds") then JNum s
      else if bool_decide (k = "nanoseconds" ∨ k = "_nanoseconds") then JNum n
      else JUndefined
  | _ => JUndefined
  end.

(** [ToNumber], [None] standing for [NaN].  Firestore stores the seconds of
    a timestamp as a number; the coercion of a non-empty string or of an
    array is not modelled and is taken as [NaN]. *)
Definition to_number (v : JsVal) : option Z :=
  match v with
  | JNum n => Some n
  | JNull => Some 0
  | JBool b => Some (if b then 1 else 0)
  | JStr [] => Some 0
  | _ => None
  end.

(** [v - w] *)
Definition js_minus (v w : JsVal) : option Z :=
  match to_number v, to_number w with
  | Some x, Some y => Some (x - y)
  | _, _ => None
  end.

(** [a.sort(cmp)]: a stable sort; a comparator result of [NaN] counts as 0. *)
Section Sort.
Context {A : Type} (cmp : A → A → option Z).

Fixpoint sort_insert (x : A) (l : list A) : list A :=
  match l with
  | [] => [x]
  | y :: l' =>
      if default 0 (cmp x y) <=? 0 then x :: l else y :: sort_insert x l'
  end.

Definition js_sort (l : list A) : list A := foldr sort_insert [] l.

End Sort.

(** ** The external collaborators *)

(** Commands of the S3 client ([src/aws.js]). *)
Inductive S3Command : Type :=
| PutObjectCommand (Bucket Key : jsstring) (ContentType : JsVal)
| GetObjectCommand (Bucket : jsstring) (Key : JsVal)
| DeleteObjectCommand (Bucket : jsstring) (Key : JsVal).

(** The calls a request can make outside the process.  All Firestore calls
    are on [db.collection('files')]. *)
Inductive Call : Type :=
| VerifyIdToken (token : jsstring)
| GetSignedUrl (command : S3Command) (expiresIn : Z)
| S3Send (command : S3Command)
| FsAdd (data : JsObj)
| FsGet (id : jsstring)
| FsDelete (id : jsstring)
| FsQuery (filters : list (string * JsVal)) (limit : option nat).

(** Calls that reach the object store or the metadata store. *)
Definition store_call (c : Call) : bool :=
  match c with VerifyIdToken _ => false | _ => true end.

(** What the process is configured with and what it cannot control: the
    bucket name of [src/aws.js], the verdict of the identity provider on a
    token ([None]: rejected), which calls fail and with what message, the
    URL the presigner produces, and the random or server-assigned values,
    indexed by a counter kept in the state. *)
Record Env : Type := {
  S3_BUCKET : jsstring;
  identity : jsstring → option jsstring;
  fails : Call → option jsstring;
  presigned : S3Command → Z → jsstring;
  random_uuid : nat → jsstring;
  auto_id : nat → jsstring;
  server_time : nat → Z;
}.

(** The [files] collection of Firestore, the keys present in the S3 bucket,
    the calls made so far (oldest first) and the counter of drawn values. *)
Record State : Type := {
  files : gmap jsstring JsObj;
  objects : gset jsstring;
  trace : list Call;
  drawn : nat;
}.

Definition log (c : Call) (st : State) : State :=
  {| files := files st; objects := objects st;
     trace := trace st ++ [c]; drawn := drawn st |}.

Definition set_files (f : gmap jsstring JsObj) (st : State) : State :=
  {| files := f; objects := objects st; trace := trace st; drawn := drawn st |}.

Definition set_objects (o : gset jsstring) (st : State) : State :=
  {| files := files st; objects := o; trace := trace st; drawn := drawn st |}.

Definition draw (st : State) : State :=
  {| files := files st; objects := objects st;
     trace := trace st; drawn := S (drawn st) |}.

(** ** The monad of handlers: state and exceptions *)

Inductive Error : Type :=
| TypeError (message : jsstring)
| Rejected (c : Call) (message : jsstring).

Definition error_message (e : Error) : jsstring :=
  match e with TypeError m => m | Rejected _ m => m end.

Inductive Result (A : Type) : Type :=
| Ok (a : A)
| Throw (e : Error).
Arguments Ok {A} a.
Arguments Throw {A} e.

Definition M (A : Type) : Type := Env → State → Result A * State.

Definition ret {A} (a : A) : M A := λ _ st, (Ok a, st).

Definition throw {A} (e : Error) : M A := λ _ st, (Throw e, st).

Definition bind {A B} (m : M A) (k : A → M B) : M B :=
  λ env st,
    match m env st with
    | (Ok a, st') => k a env st'
    | (Throw e, st') => (Throw e, st')
    end.

(** [try { body } catch (err) { handler }]: what the body did before it
    threw stays done. *)
Definition try_catch {A} (body : M A) (handler : Error → M A) : M A :=
  λ env st,
    match body env st with
    | (Ok a, st') => (Ok a, st')
    | (Throw e, st') => handler e env st'
    end.

Definition config {A} (f : Env → A) : M A := λ env st, (Ok (f env), st).

Declare Scope js_scope.
Delimit Scope js_scope with js.
Notation "x <- m ;; k" := (bind m (λ x, k))
  (at level 100, m at next level, right associativity) : js_scope.
Notation "'await' m ;; k" := (bind m (λ _, k))
  (at level 100, m at next level, right associativity) : js_scope.
Local Open Scope js_scope.

(** An external call: it is recorded, then fails or takes effect. *)
Definition call {A} (c : Call) (effect : Env → State → A * State) : M A :=
  λ env st,
    let st1 := log c st in
    match fails env c with
    | Some message => (Throw (Rejected c message), st1)
    | None => let '(a, st2) := effect env st1 in (Ok a, st2)
    end.

(** [admin.auth().verifyIdToken(token)]: the decoded uid, or a rejection. *)
Definition verifyIdToken (token : jsstring) : M jsstring :=
  λ env st,
    let c := VerifyIdToken token in
    match identity env token with
    | Some uid => (Ok uid, log c st)
    | None => (Throw (Rejected c (lit "auth/argument-error")), log c st)
    end.

(** [uuidv4()] *)
Definition uuidv4 : M jsstring :=
  λ env st, (Ok (random_uuid env (drawn st)), draw st).

(** [getSignedUrl(s3, command, { expiresIn })] *)
Definition getSignedUrl (command : S3Command) (expiresIn : Z) : M jsstring :=
  call (GetSignedUrl command expiresIn)
       (λ env st, (presigned env command expiresIn, st)).

(** The bucket after the object under [key] is deleted; a key that is not
    a string names no object. *)
Definition without_object (key : JsVal) (st : State) : State :=
  match key with
  | JStr k => set_objects (objects st ∖ {[ k ]}) st
  | _ => st
  end.

(** [s3.send(command)].  Only the delete command is sent by this code. *)
Definition s3_send (command : S3Command) : M unit :=
  call (S3Send command)
       (λ _ st,
          match command with
          | DeleteObjectCommand _ key => (tt, without_object key st)
          | _ => (tt, st)
          end).

(** Firestore replaces the [serverTimestamp()] sentinel when it writes. *)
Definition stamp (now : Z) (v : JsVal) : JsVal :=
  match v with JServerTimestamp => JTimestamp now 0 | _ => v end.

(** [db.collection('files').add(data)]: a document under a new
    server-chosen id; creating over an existing id is refused. *)
Definition fs_add (data : JsObj) : M jsstring :=
  λ env st,
    let c := FsAdd data in
    let id := auto_id env (drawn st) in
    match fails env c, files st !! id with
    | Some message, _ => (Throw (Rejected c message), log c st)
    | None, Some _ => (Throw (Rejected c (lit "ALREADY_EXISTS")), log c st)
    | None, None =>
        let doc := stamp (server_time env (drawn st)) <$> data in
        (Ok id, draw (set_files (<[id := doc]> (files st)) (log c st)))
    end.

(** [db.collection('files').doc(id).get()]: the snapshot, [None] when
    [snapshot.exists] is false.  An id the client library refuses (one
    holding a ['/'], say) is among the calls that fail. *)
Definition fs_get (id : jsstring) : M (option JsObj) :=
  call (FsGet id) (λ _ st, (files st !! id, st)).

(** [docRef.delete()] *)
Definition fs_delete (id : jsstring) : M unit :=
  call (FsDelete id) (λ _ st, (tt, set_files (delete id (files st)) st)).

(** A document passes [where(k, '==', v)] when it has field [k] equal to [v]. *)
Definition matches (filters : list (string * JsVal)) (doc : JsObj) : bool :=
  forallb (λ '(k, v), bool_decide (doc !! k = Some v)) filters.

Definition apply_limit {A} (limit : option nat) (l : list A) : list A :=
  match limit with Some n => take n l | None => l end.

(** [db.collection('files').where(..)...limit(n).get()]: [snapshot.docs]. *)
Definition fs_query (filters : list (string * JsVal)) (limit : option nat)
  : M (list (jsstring * JsObj)) :=
  call (FsQuery filters limit)
       (λ _ st,
          (apply_limit limit
             (List.filter (λ d, matches filters (snd d)) (map_to_list (files st))),
           st)).

(** ** Requests and responses *)

(** [req.user], set by the middleware. *)
Record User : Type := { uid : jsstring }.

(** What the code reads of an Express request: the [Authorization] header,
    the JSON body parsed by [express.json()] (an object), the [:id] path
    parameter, and [req.user]. *)
Record Request : Type := {
  authorization : option jsstring;
  body : JsObj;
  params_id : jsstring;
  user : option User;
}.

Definition set_user (u : User) (req : Request) : Request :=
  {| authorization := authorization req; body := body req;
     params_id := params_id req; user := Some u |}.

(** [res.status(code).json(payload)] *)
Record Response : Type := { status : Z; json : JsObj }.

Definition res_status_json (code : Z) (payload : JsObj) : Response :=
  {| status := code; json := payload |}.

(** [res.json(payload)]: status 200. *)
Definition res_json (payload : JsObj) : Response := res_status_json 200 payload.

Definition error_body (message : string) : JsObj :=
  {[ "error" := JStr (lit message) ]}.

(** [const { uid } = req.user]: a [TypeError] when [req.user] is undefined. *)
Definition destructure_user (req : Request) : M jsstring :=
  match user req with
  | Some u => ret (uid u)
  | None =>
      throw (TypeError
        (lit "Cannot destructure property 'uid' of 'req.user' as it is undefined."))
  end.

(** [sanitizeFileName(fileName)] on any value: [undefined] takes the
    default [''], and of the other values only a string has a [split]
    method. *)
Definition call_sanitizeFileName (fileName : JsVal) : M jsstring :=
  match fileName with
  | JStr name => ret (sanitizeFileName name)
  | JUndefined => ret (sanitizeFileName [])
  | JNull => throw (TypeError (lit "Cannot read properties of null (reading 'split')"))
  | _ => throw (TypeError (lit "name.split is not a function"))
  end.

(** ** [src/middleware/auth.js] *)

(** The token the middleware extracts: [null] (here [None]) unless the
    header starts with ['Bearer ']. *)
Definition bearer_token (req : Request) : option jsstring :=
  let authHeader := default [] (authorization req) in
  if startsWith (lit "Bearer ") authHeader
  then Some (slice_from (length (lit "Bearer ")) authHeader)
  else None.

(** [async function authMiddleware(req, res, next)] *)
Definition authMiddleware (req : Request) (next : Request → M Response)
  : M Response :=
  try_catch
    (match bearer_token req with
     | None | Some [] =>
         ret (res_status_json 401 (error_body "Missing Authorization header"))
     | Some token =>
         decoded_uid <- verifyIdToken token ;;
         next (set_user {| uid := decoded_uid |} req)
     end)
    (λ err, ret (res_status_json 401 (error_body "Invalid or expired token"))).

(** ** [src/routes/uploads.js] *)

(** [router.post('/upload-url', authMiddleware, async (req, res) => ...)] *)
Definition post_upload_url (req : Request) : M Response :=
  try_catch
    (let fileName := prop (body req) "fileName" in
     let fileType := prop (body req) "fileType" in
     if negb (truthy fileName) || negb (truthy fileType) then
       ret (res_status_json 400 (error_body "fileName and fileType are required"))
     else
       uid <- destructure_user req ;;
       let userStorageId := getUserStorageId uid in
       cleanName <- call_sanitizeFileName fileName ;;
       token <- uuidv4 ;;
       let objectKey := userStorageId ++ lit "/" ++ token ++ lit "-" ++ cleanName in
       bucket <- config S3_BUCKET ;;
       let command := PutObjectCommand bucket objectKey fileType in
       uploadUrl <- getSignedUrl command (60 * 5) ;;
       ret (res_json {[ "uploadUrl" := JStr uploadUrl;
                        "objectKey" := JStr objectKey;
                        "bucket" := JStr bucket ]}))
    (λ err, ret (res_status_json 500 (error_body "Failed to generate upload URL"))).

(** The record [POST /files] hands to [add]. *)
Definition file_record (uid bucket : jsstring)
    (objectKey originalName mimeType size : JsVal) : JsObj :=
  {[ "uid" := JStr uid;
     "userStorageId" := JStr (getUserStorageId uid);
     "bucket" := JStr bucket;
     "objectKey" := objectKey;
     "originalName" := originalName;
     "mimeType" := mimeType;
     "size" := js_or size JNull;
     "createdAt" := JServerTimestamp ]}.

(** [{ id: doc.id, ...data }]: the properties of [data] come last and win. *)
Definition with_id (id : jsstring) (data : JsObj) : JsObj :=
  data ∪ {[ "id" := JStr id ]}.

(** [router.post('/files', authMiddleware, async (req, res) => ...)] *)
Definition post_files (req : Request) : M Response :=
  try_catch
    (let objectKey := prop (body req) "objectKey" in
     let originalName := prop (body req) "originalName" in
     let mimeType := prop (body req) "mimeType" in
     let size := prop (body req) "size" in
     if negb (truthy objectKey) || negb (truthy originalName)
        || negb (truthy mimeType) then
       ret (res_status_json 400
              (error_body "objectKey, originalName, and mimeType are required"))
     else
       uid <- destructure_user req ;;
       bucket <- config S3_BUCKET ;;
       docRef_id <- fs_add (file_record uid bucket objectKey originalName mimeType size) ;;
       snapshot <- fs_get docRef_id ;;
       ret (res_status_json 201 (with_id docRef_id (default ∅ snapshot))))
    (λ err, ret (res_status_json 500 (error_body "Failed to save file metadata"))).

(** [a.createdAt?.seconds ?? a.createdAt?._seconds ?? 0] *)
Definition created_seconds (a : JsObj) : JsVal :=
  js_nullish
    (js_nullish (optional_prop (prop a "createdAt") "seconds")
                (optional_prop (prop a "createdAt") "_seconds"))
    (JNum 0).

(** [router.get('/list-files', authMiddleware, async (req, res) => ...)] *)
Definition get_list_files (req : Request) : M Response :=
  try_catch
    (uid <- destructure_user req ;;
     docs <- fs_query [("uid", JStr uid)] None ;;
     let files := List.map (λ doc, with_id (fst doc) (snd doc)) docs in
     let files :=
       js_sort (λ a b, js_minus (created_seconds b) (created_seconds a)) files in
     ret (res_json {[ "uid" := JStr uid;
                      "files" := JArray (List.map JObject files) ]}))
    (λ err,
       ret (res_status_json 500
              {[ "error" := js_or (JStr (error_message err))
                                  (JStr (lit "Failed to list files")) ]})).

(** [router.post('/download-url', authMiddleware, async (req, res) => ...)] *)
Definition post_download_url (req : Request) : M Response :=
  try_catch
    (let objectKey := prop (body req) "objectKey" in
     if negb (truthy objectKey) then
       ret (res_status_json 400 (error_body "objectKey is required"))
     else
       uid <- destructure_user req ;;
       docs <- fs_query [("uid", JStr uid); ("objectKey", objectKey)] (Some 1%nat) ;;
       match docs with
       | [] => ret (res_status_json 404 (error_body "File not found for this user"))
       | doc :: _ =>
           let data := snd doc in
           bucket <- config S3_BUCKET ;;
           let command := GetObjectCommand bucket objectKey in
           downloadUrl <- getSignedUrl command (60 * 5) ;;
           ret (res_json {[ "downloadUrl" := JStr downloadUrl;
                            "objectKey" := objectKey;
                            "originalName" := prop data "originalName";
                            "mimeType" := prop data "mimeType" ]})
       end)
    (λ err, ret (res_status_json 500 (error_body "Failed to generate download URL"))).

(** [router.delete('/files/:id', authMiddleware, async (req, res) => ...)] *)
Definition delete_files_id (req : Request) : M Response :=
  try_catch
    (uid <- destructure_user req ;;
     let fileId := params_id req in
     if negb (truthy (JStr fileId)) then
       ret (res_status_json 400 (error_body "File id is required"))
     else
       snapshot <- fs_get fileId ;;
       match snapshot with
       | None => ret (res_status_json 404 (error_body "File not found"))
       | Some data =>
           if negb (strict_equal (prop data "uid") (JStr uid)) then
             ret (res_status_json 403 (error_body "Not authorized to delete this file"))
           else
             let objectKey := prop data "objectKey" in
             if negb (truthy objectKey) then
               ret (res_status_json 500 (error_body "File metadata missing objectKey"))
             else
               bucket <- config S3_BUCKET ;;
               let deleteCmd := DeleteObjectCommand bucket objectKey in
               await s3_send deleteCmd ;;
               await fs_delete fileId ;;
               ret (res_json {[ "success" := JBool true ]})
       end)
    (λ err, ret (res_status_json 500 (error_body "Failed to delete file"))).

(** The routes of the uploads router, each registered behind
    [authMiddleware] and mounted under [/api] by [src/server.js]. *)
Inductive Route : Type :=
| UploadUrl | Files | ListFiles | DownloadUrl | DeleteFile.

Definition handler (r : Route) : Request → M Response :=
  match r with
  | UploadUrl => post_upload_url
  | Files => post_files
  | ListFiles => get_list_files
  | DownloadUrl => post_download_url
  | DeleteFile => delete_files_id
  end.

Definition serve (r : Route) (req : Request) : M Response :=
  authMiddleware req (handler r).

(** * Vocabulary of the properties *)

(** The two directory separators. *)
Definition is_separator (c : N) : bool := N.eqb c slash || N.eqb c backslash.

(** In the spec's words: [seg] is the final path segment of [name] when it
    holds no separator and is either all of [name] or what follows a
    separator of [name]. *)
Definition final_segment (seg name : jsstring) : Prop :=
  Forall (λ c, is_separator c = false) seg
  ∧ (name = seg ∨ ∃ dir c, is_separator c = true ∧ name = dir ++ c :: seg).

(** The replacement the spec describes, character by character. *)
Definition scrub (c : N) : N := if allowed c then c else underscore.

(** [pieces.join(c)], the inverse of [split]. *)
Fixpoint join (c : N) (pieces : list jsstring) : jsstring :=
  match pieces with
  | [] => []
  | p :: rest => match rest with [] => p | _ => p ++ c :: join c rest end
  end.

(** The character class of the code is the set the spec lists. *)
Definition allowed_set : jsstring :=
  lit "ABCDEFGHIJKLMNOPQRSTUVWXYZabcdefghijklmnopqrstuvwxyz0123456789.-_".

Definition hex_digits : jsstring := lit "0123456789abcdef".

(** The request carries a token that the identity provider maps to [uid]. *)
Definition verified (env : Env) (req : Request) (token uid : jsstring) : Prop :=
  bearer_token req = Some token ∧ token ≠ [] ∧ identity env token = Some uid.

(** No token can be read from the request. *)
Definition token_missing (req : Request) : Prop :=
  bearer_token req = None ∨ bearer_token req = Some [].

(** A token is there and the identity provider rejects it. *)
Definition token_rejected (env : Env) (req : Request) : Prop :=
  ∃ token, bearer_token req = Some token ∧ token ≠ [] ∧ identity env token = None.

(** Property [k] is missing from the request body. *)
Definition missing (req : Request) (k : string) : Prop := body req !! k = None.

(** A required field of the route is missing. *)
Definition lacks_required (r : Route) (req : Request) : Prop :=
  match r with
  | UploadUrl => missing req "fileName" ∨ missing req "fileType"
  | Files =>
      missing req "objectKey" ∨ missing req "originalName" ∨ missing req "mimeType"
  | DownloadUrl => missing req "objectKey"
  | ListFiles | DeleteFile => False
  end.

(** Document [id] is a record owned by [uid] for object [key]. *)
Definition owned_by (st : State) (uid : jsstring) (key : JsVal)
    (id : jsstring) (doc : JsObj) : Prop :=
  files st !! id = Some doc
  ∧ doc !! "uid" = Some (JStr uid) ∧ doc !! "objectKey" = Some key.

(** No record for [key] belongs to [uid]: there is none at all, or each
    belongs to somebody else. *)
Definition no_record_of (st : State) (uid : jsstring) (key : JsVal) : Prop :=
  ∀ id doc,
    files st !! id = Some doc → doc !! "objectKey" = Some key →
    doc !! "uid" ≠ Some (JStr uid).

Definition owner_filters (uid : jsstring) (key : JsVal) : list (string * JsVal) :=
  [("uid", JStr uid); ("objectKey", key)].

(** The documents the ownership query selects, before [limit(1)]. *)
Definition found (st : State) (uid : jsstring) (key : JsVal)
  : list (jsstring * JsObj) :=
  List.filter (λ d, matches (owner_filters uid key) (snd d)) (map_to_list (files st)).

Definition deleted : Response := res_json {[ "success" := JBool true ]}.
Definition delete_failed : Response :=
  res_status_json 500 (error_body "Failed to delete file").

(** The calls a [DELETE /files/:id] request can make, in order. *)
Inductive delete_calls (env : Env) (resp : Response) (st st' : State)
  : list Call → Prop :=
| stopped_early calls :
    (calls = [] ∨ (∃ token, calls = [VerifyIdToken token])
     ∨ ∃ token id, calls = [VerifyIdToken token; FsGet id]) →
    files st' = files st → objects st' = objects st →
    delete_calls env resp st st' calls
| object_delete_failed token id key :
    fails env (S3Send (DeleteObjectCommand (S3_BUCKET env) key)) ≠ None →
    status resp = 500 →
    files st' = files st → objects st' = objects st →
    delete_calls env resp st st'
      [VerifyIdToken token; FsGet id;
       S3Send (DeleteObjectCommand (S3_BUCKET env) key)]
| object_deleted token id key :
    fails env (S3Send (DeleteObjectCommand (S3_BUCKET env) key)) = None →
    delete_calls env resp st st'
      [VerifyIdToken token; FsGet id;
       S3Send (DeleteObjectCommand (S3_BUCKET env) key); FsDelete id].

(** The seconds a listed file is sorted by, when they are a number. *)
Definition seconds_of (a : JsObj) : Z := default 0 (to_number (created_seconds a)).

Definition has_numeric_seconds (a : JsObj) : Prop :=
  ∃ n, created_seconds a = JNum n.

(** The comparator of [GET /list-files] and the list it answers with. *)
Definition newest_first (a b : JsObj) : option Z :=
  js_minus (created_seconds b) (created_seconds a).

Definition listing (st : State) (uid : jsstring) : list JsObj :=
  js_sort newest_first
    (List.map (λ doc, with_id (fst doc) (snd doc))
       (List.filter (λ d, matches [("uid", JStr uid)] (snd d))
          (map_to_list (files st)))).

(** A response is a success (200, 201) or an error status with a JSON body
    that carries an [error] string. *)
Definition well_formed (resp : Response) : Prop :=
  status resp = 200 ∨ status resp = 201
  ∨ (status resp ∈ [400; 401; 403; 404; 500]
     ∧ ∃ message, json resp !! "error" = Some (JStr message)).

(** ** A concrete deployment, for running the handlers *)

Module Scenario.

Definition bucket : jsstring := lit "filevault-uploads".

(** Two users; the identity provider knows one token for each. *)
Definition U1 : jsstring := lit "U1".
Definition U2 : jsstring := lit "U2".

Definition provider (token : jsstring) : option jsstring :=
  if bool_decide (token = lit "token-of-U1") then Some U1
  else if bool_decide (token = lit "token-of-U2") then Some U2
  else None.

(** Every store call succeeds. *)
Definition env : Env := {|
  S3_BUCKET := bucket;
  identity := provider;
  fails := λ _, None;
  presigned := λ _ _, lit "https://s3.example/presigned";
  random_uuid := λ _, lit "0b6f8a52-6f0e-4c55-9d3a-1c2f4e5a7b90";
  auto_id := λ n, lit "doc-" ++ [(48 + N.of_nat n)%N];
  server_time := λ n, 1700000000 + Z.of_nat n;
|}.

(** The same deployment with the object store down. *)
Definition env_s3_down : Env := {|
  S3_BUCKET := bucket;
  identity := provider;
  fails := λ c, match c with S3Send _ => Some (lit "NetworkingError") | _ => None end;
  presigned := presigned env;
  random_uuid := random_uuid env;
  auto_id := auto_id env;
  server_time := server_time env;
|}.

Definition request (token : string) (payload : JsObj) (id : string) : Request := {|
  authorization := Some (lit "Bearer " ++ lit token);
  body := payload;
  params_id := lit id;
  user := None;
|}.

Definition anonymous (payload : JsObj) (id : string) : Request := {|
  authorization := None; body := payload; params_id := lit id; user := None;
|}.

Definition nothing : State :=
  {| files := ∅; objects := ∅; trace := []; drawn := 0 |}.

(** One file of U1, registered under id [f1]. *)
Definition report_key : jsstring :=
  lit "316ca0efda6296d8f2c11d1e20890d22/0b6f8a52-6f0e-4c55-9d3a-1c2f4e5a7b90-report.pdf".

Definition report : JsObj :=
  stamp 1700000000
  <$> file_record U1 bucket (JStr report_key) (JStr (lit "report.pdf"))
        (JStr (lit "application/pdf")) (JNum 1024).

Definition one_file : State :=
  {| files := {[ lit "f1" := report ]}; objects := {[ report_key ]};
     trace := []; drawn := 1 |}.

(** A record of U1 whose [objectKey] field is there and is the empty
    string. *)
Definition empty_key_record : JsObj := <[ "objectKey" := JStr [] ]> report.

Definition one_empty_key : State :=
  {| files := {[ lit "f2" := empty_key_record ]}; objects := {[ report_key ]};
     trace := []; drawn := 1 |}.

(** The requests run below. *)
Definition upload_report : Request :=
  request "token-of-U1"
    {[ "fileName" := JStr (lit "a/b/report.pdf");
       "fileType" := JStr (lit "application/pdf") ]} "".

Definition upload_without_name : Request :=
  request "token-of-U1" {[ "fileType" := JStr (lit "application/pdf") ]} "".

Definition register_report_size_0 : Request :=
  request "token-of-U1"
    {[ "objectKey" := JStr report_key;
       "originalName" := JStr (lit "report.pdf");
       "mimeType" := JStr (lit "application/pdf");
       "size" := JNum 0 ]} "".

Definition download_report (token : string) : Request :=
  request token {[ "objectKey" := JStr report_key ]} "".

Definition delete_id (token id : string) : Request := request token ∅ id.

(** The response and the final state of a run. *)
Definition response_of (run : Result Response * State) : Response :=
  match fst run with
  | Ok resp => resp
  | Throw _ => res_status_json 0 ∅
  end.

Definition state_of (run : Result Response * State) : State := snd run.

(** The client's PUT to the pre-signed URL, which the backend does not see. *)
Definition client_put (key : jsstring) (st : State) : State :=
  set_objects ({[ key ]} ∪ objects st) st.

Definition register_report (token : string) : Request :=
  request token
    {[ "objectKey" := JStr report_key;
       "originalName" := JStr (lit "report.pdf");
       "mimeType" := JStr (lit "application/pdf");
       "size" := JNum 1024 ]} "".

Definition list_files (token : string) : Request := request token ∅ "".

(** The end-to-end scenario of the spec, step by step: U1 asks for an
    upload URL, uploads, registers the file; both users list their files; U2
    asks for a download URL of U1's key; U1 deletes the file and lists
    again. *)
Definition step1 := serve UploadUrl upload_report env nothing.
Definition step2 :=
  serve Files (register_report "token-of-U1") env (client_put report_key (state_of step1)).
Definition step3 := serve ListFiles (list_files "token-of-U1") env (state_of step2).
Definition step4 := serve ListFiles (list_files "token-of-U2") env (state_of step3).
Definition step5 := serve DownloadUrl (download_report "token-of-U2") env (state_of step4).
Definition step6 := serve DeleteFile (delete_id "token-of-U1" "doc-1") env (state_of step5).
Definition step7 := serve ListFiles (list_files "token-of-U1") env (state_of step6).

(** U2 registers the key of U1's file as its own, then asks to download it. *)
Definition foreign1 := serve Files (register_report "token-of-U2") env one_file.
Definition foreign2 :=
  serve DownloadUrl (download_report "token-of-U2") env (state_of foreign1).

(** U1 asks for an upload URL in the empty deployment, and registers the
    report with a size of 0. *)
Definition upload_run : Result Response * State :=
  serve UploadUrl upload_report env nothing.

Definition register_run : Result Response * State :=
  serve Files register_report_size_0 env nothing.

End Scenario.

(** * Properties *)

(** ** Runs of the pure functions *)

Example sanitize_report : sanitizeFileName (lit "a/b/report.pdf") = lit "report.pdf".
Proof. reflexivity. Qed.

Example sanitize_spaces : sanitizeFileName (lit "my file (1).txt") = lit "my_file__1_.txt".
Proof. reflexivity. Qed.

Example sha256_constants :
  Sha256.K !! 0%nat = Some 0x428a2f98 ∧ Sha256.K !! 63%nat = Some 0xc67178f2
  ∧ Sha256.ra Sha256.H0 = 0x6a09e667 ∧ Sha256.rh Sha256.H0 = 0x5be0cd19.
Proof. by vm_compute. Qed.

Example sha256_abc :
  sha256_hex (lit "abc")
  = lit "ba7816bf8f01cfea414140de5dae2223b00361a396177a9cb410ff61f20015ad".
Proof. vm_compute. reflexivity. Qed.

Example sha256_empty :
  sha256_hex []
  = lit "e3b0c44298fc1c149afbf4c8996fb92427ae41e4649b934ca495991b7852b855".
Proof. vm_compute. reflexivity. Qed.

(** ** The name sanitizer *)

Lemma split_nonempty c s : split c s ≠ [].
Proof. destruct s as [|x r]; simpl; [done|]. by repeat case_match. Qed.

Lemma join_split c s : join c (split c s) = s.
Proof.
  induction s as [|x r IH]; simpl; [done|].
  pose proof (split_nonempty c r) as Hne.
  destruct (N.eqb x c) eqn:Hx.
  - apply N.eqb_eq in Hx as ->.
    destruct (split c r) as [|h t]; [done|]. simpl in *. by rewrite IH.
  - destruct (split c r) as [|h t]; [done|].
    destruct t; simpl in *; by rewrite <- IH.
Qed.

Lemma split_pieces_free c s :
  Forall (Forall (λ x, N.eqb x c = false)) (split c s).
Proof.
  induction s as [|x r IH]; simpl.
  - by repeat constructor.
  - destruct (N.eqb x c) eqn:Hx.
    + by constructor.
    + destruct (split c r) as [|h t]; [by repeat constructor|].
      inversion_clear IH. by repeat constructor.
Qed.

Lemma join_last c pieces :
  pieces ≠ [] →
  join c pieces = pop pieces ∨ ∃ dir, join c pieces = dir ++ c :: pop pieces.
Proof.
  unfold pop. induction pieces as [|p rest IH]; [done|]. intros _.
  destruct rest as [|q rest']; [by left|]. right.
  destruct IH as [IH|[dir IH]]; [done| |].
  - exists p. change (join c (p :: q :: rest')) with (p ++ c :: join c (q :: rest')).
    by rewrite IH.
  - exists (p ++ c :: dir).
    change (join c (p :: q :: rest')) with (p ++ c :: join c (q :: rest')).
    rewrite IH. by rewrite <- app_assoc.
Qed.

(** What [s.split(c).pop()] returns: the piece after the last [c]. *)
Lemma pop_split c s :
  Forall (λ x, N.eqb x c = false) (pop (split c s))
  ∧ (s = pop (split c s) ∨ ∃ dir, s = dir ++ c :: pop (split c s)).
Proof.
  pose proof (split_nonempty c s) as Hne. split.
  - pose proof (split_pieces_free c s) as Hfree.
    rewrite Forall_forall in Hfree. apply Hfree. unfold pop.
    destruct (split c s) as [|h t]; [done|].
    rewrite list_elem_of_In.
    destruct (exists_last (l := h :: t)) as (l' & a & Heq); [done|].
    rewrite Heq, last_last. apply in_or_app. right. by left.
  - destruct (join_last c (split c s) Hne) as [H|[dir H]];
      rewrite join_split in H; eauto.
Qed.

Lemma split_free c s : Forall (λ x, N.eqb x c = false) s → split c s = [s].
Proof.
  induction 1 as [|x r Hx _ IH]; simpl; [done|]. by rewrite Hx, IH.
Qed.

Lemma final_segment_unique seg seg' name :
  final_segment seg name → final_segment seg' name → seg = seg'.
Proof.
  assert (Hclash : ∀ (s dir : jsstring) c t,
            Forall (λ c, is_separator c = false) s →
            is_separator c = true → s ≠ dir ++ c :: t).
  { intros s dir c t Hs Hc ->. rewrite Forall_forall in Hs.
    rewrite Hs in Hc; [done|]. rewrite list_elem_of_In. apply in_elt. }
  intros [Hs [->|(dir & c & Hc & ->)]] [Hs' [H'|(dir' & c' & Hc' & H')]].
  - done.
  - by destruct (Hclash _ _ _ _ Hs Hc' H').
  - by destruct (Hclash _ _ _ _ Hs' Hc (eq_sym H')).
  - revert dir' H'. induction dir as [|x dir IH]; intros [|y dir'] H';
      simplify_eq/=; try done.
    + by destruct (Hclash _ _ _ _ Hs Hc' eq_refl).
    + by destruct (Hclash _ _ _ _ Hs' Hc eq_refl).
    + by eapply IH.
Qed.

(** The two [split(..).pop()] passes of the code leave the final segment. *)
Lemma onlyName_final_segment name :
  final_segment (pop (split backslash (pop (split slash name)))) name.
Proof.
  destruct (pop_split slash name) as [Hfree1 Hshape1].
  destruct (pop_split backslash (pop (split slash name))) as [Hfree2 Hshape2].
  set (t1 := pop (split slash name)) in *.
  set (t2 := pop (split backslash t1)) in *.
  assert (Hsub : ∀ c, c ∈ t2 → c ∈ t1).
  { intros c Hc. destruct Hshape2 as [H|[dir H]]; rewrite H; [done|].
    rewrite elem_of_app. right. by right. }
  split.
  - rewrite Forall_forall in *. intros c Hc. unfold is_separator.
    by rewrite (Hfree2 c Hc), (Hfree1 c (Hsub c Hc)).
  - destruct Hshape2 as [H2|[dir2 H2]]; destruct Hshape1 as [H1|[dir1 H1]].
    + left. congruence.
    + right. exists dir1, slash. split; [done|]. congruence.
    + right. exists dir2, backslash. split; [done|]. congruence.
    + right. exists (dir1 ++ slash :: dir2), backslash. split; [done|].
      rewrite H1 at 1. rewrite H2 at 1. by rewrite <- app_assoc.
Qed.

(** Case analysis on a character class written with [||], [&&] and
    comparisons. *)
Ltac split_class H :=
  repeat match type of H with
         | (_ || _) = true => apply orb_true_iff in H as [H|H]
         | (_ && _) = true =>
             let H' := fresh H in apply andb_true_iff in H as [H H']
         end;
  repeat match goal with
         | H : N.leb _ _ = true |- _ => apply N.leb_le in H
         | H : N.eqb _ _ = true |- _ => apply N.eqb_eq in H
         end.

Lemma allowed_spec c : allowed c = true ↔ c ∈ allowed_set.
Proof.
  assert (Hsmall : ∀ n : nat, (n < 128)%nat →
            allowed (N.of_nat n) = bool_decide (N.of_nat n ∈ allowed_set)).
  { intros n Hn. do 128 (destruct n as [|n]; [by vm_compute|]). lia. }
  destruct (decide (c < 128)%N) as [Hc|Hc].
  - rewrite <- (N2Nat.id c), Hsmall by lia. apply bool_decide_eq_true.
  - split.
    + unfold allowed. intros H. split_class H; lia.
    + intros Hin. exfalso. apply Hc.
      assert (Hall : Forall (λ x, (x < 128)%N) allowed_set)
        by (vm_compute; repeat constructor).
      rewrite Forall_forall in Hall. by apply Hall.
Qed.

Lemma allowed_scrub c : allowed (scrub c) = true.
Proof. unfold scrub. by destruct (allowed c) eqn:H. Qed.

Lemma allowed_not_separator c : allowed c = true → is_separator c = false.
Proof.
  unfold allowed, is_separator, slash, backslash. intros H.
  apply orb_false_iff. rewrite !N.eqb_neq. split_class H; lia.
Qed.

Lemma sanitizeFileName_allowed name :
  Forall (λ c, allowed c = true) (sanitizeFileName name).
Proof.
  unfold sanitizeFileName, replace_outside. apply Forall_forall.
  intros c Hc. rewrite list_elem_of_In in Hc. apply in_map_iff in Hc as (x & <- & _).
  apply allowed_scrub.
Qed.

Lemma sanitizeFileName_clean name :
  Forall (λ c, allowed c = true) name → sanitizeFileName name = name.
Proof.
  intros Hclean. unfold sanitizeFileName.
  assert (Hsep : ∀ sep, is_separator sep = true →
                   Forall (λ x, N.eqb x sep = false) name).
  { intros sep Hsep. eapply Forall_impl; [exact Hclean|]. intros c Hc. simpl.
    apply allowed_not_separator in Hc. apply N.eqb_neq. intros ->. congruence. }
  rewrite (split_free slash) by (by apply Hsep). unfold pop at 2. simpl.
  rewrite (split_free backslash) by (by apply Hsep). unfold pop. simpl.
  clear Hsep. unfold replace_outside.
  induction Hclean as [|c r Hc _ IH]; simpl; [done|]. by rewrite Hc, IH.
Qed.

(** C5: [sanitizeFileName] keeps exactly the final path segment of its
    argument with respect to both ['/'] and ['\'] (that segment exists and is
    unique), then replaces each character outside the allowed set by ['_'];
    being a function it is deterministic and total, and it maps the empty
    string to the empty string. *)
Theorem sanitizeFileName_final_segment_scrubbed (name : jsstring) :
  (∃ seg, final_segment seg name
          ∧ (∀ seg', final_segment seg' name → seg' = seg)
          ∧ sanitizeFileName name = List.map scrub seg
          ∧ length (sanitizeFileName name) = length seg)
  ∧ (∀ c, scrub c = if bool_decide (c ∈ allowed_set) then c else underscore)
  ∧ sanitizeFileName [] = [].
Proof.
  split; [|split; [|done]].
  - exists (pop (split backslash (pop (split slash name)))).
    pose proof (onlyName_final_segment name) as Hseg.
    split; [done|]. split; [|split].
    + intros seg' Hseg'. by apply (final_segment_unique _ _ name).
    + done.
    + unfold sanitizeFileName, replace_outside. by rewrite length_map.
  - intros c. unfold scrub. destruct (allowed c) eqn:Hc.
    + apply allowed_spec in Hc. by rewrite bool_decide_eq_true_2.
    + rewrite bool_decide_eq_false_2; [done|]. rewrite <- allowed_spec. congruence.
Qed.

(** C6: sanitizing twice is sanitizing once; the output holds only characters
    of the allowed set; and the traversal inputs of the spec reduce to their
    sanitized final segment. *)
Theorem sanitizeFileName_idempotent_and_clean (x : jsstring) :
  sanitizeFileName (sanitizeFileName x) = sanitizeFileName x
  ∧ Forall (λ c, c ∈ allowed_set) (sanitizeFileName x)
  ∧ sanitizeFileName (lit "../../etc/passwd") = lit "passwd"
  ∧ sanitizeFileName (lit "a\b\c.txt") = lit "c.txt"
  ∧ sanitizeFileName (lit "a\\b\\c.txt") = lit "c.txt".
Proof.
  pose proof (sanitizeFileName_allowed x) as Hclean.
  split; [by apply sanitizeFileName_clean|]. split; [|by vm_compute].
  eapply Forall_impl; [exact Hclean|]. intros c Hc. by apply allowed_spec.
Qed.

(** ** The storage namespace *)

Lemma hex_digit_nibble z : hex_digit (Z.land z 15) ∈ hex_digits.
Proof.
  change 15 with (Z.ones 4). rewrite Z.land_ones by lia.
  pose proof (Z.mod_pos_bound z (2 ^ 4) ltac:(lia)) as Hb.
  set (n := z mod 2 ^ 4) in *. clearbody n.
  assert (Hn : n = 0 ∨ n = 1 ∨ n = 2 ∨ n = 3 ∨ n = 4 ∨ n = 5 ∨ n = 6 ∨ n = 7
               ∨ n = 8 ∨ n = 9 ∨ n = 10 ∨ n = 11 ∨ n = 12 ∨ n = 13 ∨ n = 14
               ∨ n = 15) by lia.
  decompose [or] Hn; subst n; apply (bool_decide_unpack _); by vm_compute.
Qed.

Lemma hex_is_hex bs : Forall (λ c, c ∈ hex_digits) (hex bs).
Proof.
  unfold hex. induction bs as [|b bs IH]; simpl; [constructor|].
  constructor; [apply hex_digit_nibble|].
  constructor; [apply hex_digit_nibble|exact IH].
Qed.

Lemma hex_length bs : length (hex bs) = (2 * length bs)%nat.
Proof. unfold hex. induction bs as [|b bs IH]; simpl; [done|]. rewrite IH. lia. Qed.

Lemma sha256_length msg : length (Sha256.sha256 msg) = 32%nat.
Proof. unfold Sha256.sha256. by destruct (fold_left _ _ _). Qed.

(** C7: [getUserStorageId] is a function of the uid alone (equal uids give
    equal namespaces, on every call); its value is the first 32 characters of
    the 64-character hexadecimal SHA-256 digest of the uid, so it always has
    length 32 and holds only hexadecimal digits. *)
Theorem getUserStorageId_deterministic_32_hex (uid uid' : jsstring) :
  length (getUserStorageId uid) = 32%nat
  ∧ Forall (λ c, c ∈ hex_digits) (getUserStorageId uid)
  ∧ length (sha256_hex uid) = 64%nat
  ∧ getUserStorageId uid ++ drop 32 (sha256_hex uid)
    = hex (Sha256.sha256 (utf8 uid))
  ∧ (uid = uid' → getUserStorageId uid = getUserStorageId uid').
Proof.
  assert (Hlen : length (sha256_hex uid) = 64%nat).
  { unfold sha256_hex. by rewrite hex_length, sha256_length. }
  unfold getUserStorageId, slice_to. split; [|split; [|split; [|split]]].
  - rewrite length_take. lia.
  - apply Forall_take. unfold sha256_hex. apply hex_is_hex.
  - done.
  - apply take_drop.
  - by intros ->.
Qed.

Example getUserStorageId_U1 :
  getUserStorageId (lit "U1") = lit "316ca0efda6296d8f2c11d1e20890d22".
Proof. vm_compute. reflexivity. Qed.

(** ** The handlers *)

(** Unfolding of the monad and of the external calls. *)
Ltac unfold_monad :=
  unfold destructure_user, call_sanitizeFileName, getSignedUrl, s3_send,
    fs_add, fs_get, fs_delete, fs_query, uuidv4, verifyIdToken, call,
    try_catch, bind, config, ret, throw in *.

#[local] Arguments getUserStorageId : simpl never.
#[local] Arguments sanitizeFileName : simpl never.
#[local] Arguments lit : simpl never.
#[local] Arguments matches : simpl never.

(** A handler whose [catch] block only sends a response never throws. *)
Lemma try_catch_returns {A} (body : M A) (f : Error → A) env st :
  ∃ a st', try_catch body (λ err, ret (f err)) env st = (Ok a, st').
Proof.
  unfold try_catch, ret. destruct (body env st) as [[a|e] st']; eauto.
Qed.

Lemma handler_returns r req env st :
  ∃ resp st', handler r req env st = (Ok resp, st').
Proof. destruct r; apply try_catch_returns. Qed.

Lemma no_header_token_missing req : authorization req = None → token_missing req.
Proof. intros H. left. unfold bearer_token. by rewrite H. Qed.

(** After a successful verification the middleware hands over to [next]
    with [req.user] set; the identity check is the only call made so far. *)
Lemma authMiddleware_verified env st req token uid next :
  verified env req token uid →
  (∃ resp st', next (set_user {| uid := uid |} req) env
                 (log (VerifyIdToken token) st) = (Ok resp, st')) →
  authMiddleware req next env st
  = next (set_user {| uid := uid |} req) env (log (VerifyIdToken token) st).
Proof.
  intros (Htok & Hne & Hid) (resp & st' & Hnext).
  unfold authMiddleware. rewrite Htok. destruct token as [|c token]; [done|].
  unfold_monad. by rewrite Hid, Hnext.
Qed.

Lemma serve_verified env st req token uid r :
  verified env req token uid →
  serve r req env st
  = handler r (set_user {| uid := uid |} req) env (log (VerifyIdToken token) st).
Proof.
  intros Hv. apply authMiddleware_verified; [done|]. apply handler_returns.
Qed.

(** Without a verified token the middleware answers 401 itself, whatever
    comes after it. *)
Lemma authMiddleware_unauthenticated env st req next :
  token_missing req ∨ token_rejected env req →
  ∃ message st' calls,
    authMiddleware req next env st
    = (Ok (res_status_json 401 (error_body message)), st')
    ∧ files st' = files st ∧ objects st' = objects st
    ∧ trace st' = trace st ++ calls
    ∧ (calls = [] ∨ ∃ token, calls = [VerifyIdToken token]).
Proof.
  intros [[H|H]|(token & H & Hne & Hid)]; unfold authMiddleware; rewrite H.
  - exists "Missing Authorization header", st, []. unfold_monad.
    rewrite app_nil_r. split_and!; try done. by left.
  - exists "Missing Authorization header", st, []. unfold_monad.
    rewrite app_nil_r. split_and!; try done. by left.
  - destruct token as [|c token]; [done|].
    exists "Invalid or expired token", (log (VerifyIdToken (c :: token)) st),
      [VerifyIdToken (c :: token)].
    unfold_monad. rewrite Hid. split_and!; try done. right. by eexists.
Qed.

(** C4: on each of the five protected routes, a request whose bearer token
    is missing or is rejected by the identity provider is answered 401 by the
    middleware alone: the answer is the same whatever handler follows, the
    Firestore collection and the bucket are unchanged, and no call to the
    object store or the metadata store is made.  When the token is verified,
    the route is its handler run on the request with [req.user.uid] set to
    the verified uid. *)
Theorem unauthenticated_401_before_handler
    (r : Route) (env : Env) (st : State) (req : Request) :
  (token_missing req ∨ token_rejected env req →
     ∃ message st',
       serve r req env st = (Ok (res_status_json 401 (error_body message)), st')
       ∧ (∀ next, authMiddleware req next env st = serve r req env st)
       ∧ files st' = files st ∧ objects st' = objects st
       ∧ ∃ calls, trace st' = trace st ++ calls
                  ∧ Forall (λ c, store_call c = false) calls)
  ∧ (∀ token uid,
       verified env req token uid →
       user (set_user {| uid := uid |} req) = Some {| uid := uid |}
       ∧ serve r req env st
         = handler r (set_user {| uid := uid |} req) env
             (log (VerifyIdToken token) st)).
Proof.
  split.
  - intros Hno.
    destruct (authMiddleware_unauthenticated env st req (handler r) Hno)
      as (message & st' & calls & Hrun & Hfiles & Hobjs & Htrace & Hcalls).
    exists message, st'. split_and!; try done.
    2: { exists calls. split; [done|].
         destruct Hcalls as [->|[token ->]]; by repeat constructor. }
    intros next. unfold serve. clear -Hno. unfold authMiddleware.
    destruct Hno as [[H|H]|(token & H & Hne & Hid)]; rewrite H.
    + done.
    + done.
    + destruct token; [done|]. unfold_monad. by rewrite Hid.
  - intros token uid Hv. split; [done|]. by apply serve_verified.
Qed.

(** *** Required fields *)

Lemma missing_falsy req k : missing req k → truthy (prop (body req) k) = false.
Proof. unfold missing, prop. by intros ->. Qed.

(** The validation comes first in the three handlers and neither reads
    [req.user] nor calls anything: a falsy required field is enough. *)
Lemma post_upload_url_invalid env st req :
  truthy (prop (body req) "fileName") = false
  ∨ truthy (prop (body req) "fileType") = false →
  post_upload_url req env st
  = (Ok (res_status_json 400 (error_body "fileName and fileType are required")), st).
Proof.
  intros H. unfold post_upload_url. unfold_monad.
  destruct H as [-> | ->]; [done|]. by rewrite orb_true_r.
Qed.

Lemma post_files_invalid env st req :
  truthy (prop (body req) "objectKey") = false
  ∨ truthy (prop (body req) "originalName") = false
  ∨ truthy (prop (body req) "mimeType") = false →
  post_files req env st
  = (Ok (res_status_json 400
           (error_body "objectKey, originalName, and mimeType are required")), st).
Proof.
  intros H. unfold post_files. unfold_monad.
  destruct H as [-> | [-> | ->]]; simpl; by rewrite ?orb_true_r.
Qed.

Lemma post_download_url_invalid env st req :
  truthy (prop (body req) "objectKey") = false →
  post_download_url req env st
  = (Ok (res_status_json 400 (error_body "objectKey is required")), st).
Proof. intros H. unfold post_download_url. unfold_monad. by rewrite H. Qed.

(** C9: an authenticated request to [/upload-url], [/files] or
    [/download-url] that lacks a required field is answered 400; the state
    after it is the state before it with the identity check appended to the
    trace, so no object-store or metadata-store call was made and both
    stores are unchanged. *)
Theorem missing_field_400_no_store_call
    (r : Route) (env : Env) (st : State) (req : Request) (token uid : jsstring) :
  verified env req token uid →
  lacks_required r req →
  ∃ message st',
    serve r req env st = (Ok (res_status_json 400 (error_body message)), st')
    ∧ st' = log (VerifyIdToken token) st
    ∧ files st' = files st ∧ objects st' = objects st
    ∧ trace st' = trace st ++ [VerifyIdToken token]
    ∧ Forall (λ c, store_call c = false) [VerifyIdToken token].
Proof.
  intros Hv Hlack. rewrite (serve_verified env st req token uid r Hv).
  destruct r; simpl in Hlack; try done; eexists _, _;
    (split; [|split; [reflexivity|by repeat split; repeat constructor]]); simpl.
  - apply post_upload_url_invalid.
    destruct Hlack as [H|H]; [left|right]; by apply (missing_falsy req).
  - apply post_files_invalid.
    destruct Hlack as [H|[H|H]]; [left|right; left|right; right];
      by apply (missing_falsy req).
  - apply post_download_url_invalid. by apply (missing_falsy req).
Qed.

(** *** Upload URLs *)

Lemma startsWith_app p s : startsWith p (p ++ s) = true.
Proof. induction p as [|c p IH]; simpl; [done|]. by rewrite N.eqb_refl. Qed.

(** Every answer of a protected route is either the middleware's 401 or the
    handler's answer for the verified user. *)
Lemma serve_cases env st req r resp st' :
  serve r req env st = (Ok resp, st') →
  (status resp = 401 ∧ (token_missing req ∨ token_rejected env req))
  ∨ (∃ token uid,
       verified env req token uid
       ∧ handler r (set_user {| uid := uid |} req) env
           (log (VerifyIdToken token) st) = (Ok resp, st')).
Proof.
  intros Hrun.
  destruct (bearer_token req) as [[|c token]|] eqn:Htok.
  - left. unfold serve, authMiddleware in Hrun. rewrite Htok in Hrun.
    unfold_monad. simplify_eq. split; [done|]. left. by right.
  - destruct (identity env (c :: token)) as [uid|] eqn:Hid.
    + right. exists (c :: token), uid.
      assert (Hv : verified env req (c :: token) uid) by done.
      split; [done|]. by rewrite <- (serve_verified env st req _ uid r Hv).
    + left. unfold serve, authMiddleware in Hrun. rewrite Htok in Hrun.
      unfold_monad. rewrite Hid in Hrun. simplify_eq. split; [done|].
      right. by exists (c :: token).
  - left. unfold serve, authMiddleware in Hrun. rewrite Htok in Hrun.
    unfold_monad. simplify_eq. split; [done|]. left. by left.
Qed.

(** The only way [POST /upload-url] answers 200. *)
Lemma post_upload_url_success env st req resp st' :
  post_upload_url req env st = (Ok resp, st') →
  status resp = 200 →
  ∃ u name,
    user req = Some u
    ∧ prop (body req) "fileName" = JStr name
    ∧ truthy (JStr name) = true
    ∧ truthy (prop (body req) "fileType") = true
    ∧ let objectKey := getUserStorageId (uid u) ++ lit "/"
                       ++ random_uuid env (drawn st) ++ lit "-"
                       ++ sanitizeFileName name in
      let command :=
        PutObjectCommand (S3_BUCKET env) objectKey (prop (body req) "fileType") in
      fails env (GetSignedUrl command 300) = None
      ∧ resp = res_json {[ "uploadUrl" := JStr (presigned env command 300);
                           "objectKey" := JStr objectKey;
                           "bucket" := JStr (S3_BUCKET env) ]}
      ∧ st' = log (GetSignedUrl command 300) (draw st).
Proof.
  unfold post_upload_url. unfold_monad. intros Hrun Hok.
  destruct (truthy (prop (body req) "fileName")) eqn:Hname;
    [|by simplify_eq/=].
  destruct (truthy (prop (body req) "fileType")) eqn:Htype;
    [|by simplify_eq/=].
  simpl in Hrun. destruct (user req) as [u|]; [|by simplify_eq/=].
  destruct (prop (body req) "fileName") as [| | | | |name| | | |] eqn:Hfn;
    try by simplify_eq/=.
  exists u, name. change (60 * 5) with 300 in Hrun.
  destruct (fails env (GetSignedUrl _ 300)) eqn:Hsign in Hrun;
    [by simplify_eq/=|].
  simplify_eq/=. by rewrite Hsign.
Qed.

(** C8: whenever [POST /upload-url] succeeds (status 200), the caller was
    verified as some [uid], [fileName] was a non-empty string and [fileType]
    was present, and the body is [{uploadUrl, objectKey, bucket}] with
    [objectKey = namespace(uid) + '/' + token + '-' + sanitize(fileName)] for
    the random token drawn; the key starts with the caller's own namespace
    followed by ['/'], and nothing was stored or deleted. *)
Theorem upload_url_key_in_own_namespace
    (env : Env) (st : State) (req : Request) (resp : Response) (st' : State) :
  serve UploadUrl req env st = (Ok resp, st') →
  status resp = 200 →
  ∃ bearer uid name token,
    verified env req bearer uid
    ∧ prop (body req) "fileName" = JStr name
    ∧ truthy (prop (body req) "fileType") = true
    ∧ token = random_uuid env (drawn st)
    ∧ let objectKey :=
        getUserStorageId uid ++ lit "/" ++ token ++ lit "-" ++ sanitizeFileName name in
      let command :=
        PutObjectCommand (S3_BUCKET env) objectKey (prop (body req) "fileType") in
      json resp = {[ "uploadUrl" := JStr (presigned env command 300);
                     "objectKey" := JStr objectKey;
                     "bucket" := JStr (S3_BUCKET env) ]}
      ∧ startsWith (getUserStorageId uid ++ lit "/") objectKey = true
      ∧ files st' = files st ∧ objects st' = objects st.
Proof.
  intros Hrun Hok.
  destruct (serve_cases _ _ _ _ _ _ Hrun) as [[H401 _]|(bearer & uid & Hv & Hh)].
  { rewrite H401 in Hok. done. }
  destruct (post_upload_url_success _ _ _ _ _ Hh Hok)
    as (u & name & Hu & Hname & _ & Htype & _ & -> & ->).
  simpl in Hu. simplify_eq. exists bearer, uid, name, (random_uuid env (drawn st)).
  cbv zeta. split_and!; [done|done|done|reflexivity|reflexivity| |reflexivity..].
  rewrite (app_assoc (getUserStorageId uid)). apply startsWith_app.
Qed.

(** *** File metadata *)

Lemma file_record_size u bucket objectKey originalName mimeType size :
  file_record u bucket objectKey originalName mimeType size !! "size"
  = Some (js_or size JNull).
Proof. unfold file_record. by simplify_map_eq. Qed.

Lemma with_id_lookup id (data : JsObj) k v :
  data !! k = Some v → with_id id data !! k = Some v.
Proof. intros H. unfold with_id. by apply lookup_union_Some_l. Qed.

(** What is stored for [size || null]. *)
Lemma stored_size_falsy now size :
  truthy size = false → stamp now (js_or size JNull) = JNull.
Proof. unfold js_or. by intros ->. Qed.

Lemma stored_size_never_zero now size : stamp now (js_or size JNull) ≠ JNum 0.
Proof.
  unfold js_or. destruct (truthy size) eqn:Ht; [|done].
  destruct size; simpl in *; try done. intros [= ->]. done.
Qed.

(** The only way [POST /files] answers 201. *)
Lemma post_files_created env st req resp st' :
  post_files req env st = (Ok resp, st') →
  status resp = 201 →
  ∃ u,
    user req = Some u
    ∧ let record :=
        file_record (uid u) (S3_BUCKET env)
          (prop (body req) "objectKey") (prop (body req) "originalName")
          (prop (body req) "mimeType") (prop (body req) "size") in
      let id := auto_id env (drawn st) in
      let doc := stamp (server_time env (drawn st)) <$> record in
      fails env (FsAdd record) = None
      ∧ files st !! id = None
      ∧ resp = res_status_json 201 (with_id id doc)
      ∧ st' = log (FsGet id)
                (draw (set_files (<[id := doc]> (files st)) (log (FsAdd record) st))).
Proof.
  unfold post_files. unfold_monad. intros Hrun Hok.
  destruct (truthy (prop (body req) "objectKey")); [|by simplify_eq/=].
  destruct (truthy (prop (body req) "originalName")); [|by simplify_eq/=].
  destruct (truthy (prop (body req) "mimeType")); [|by simplify_eq/=].
  simpl in Hrun. destruct (user req) as [u|]; [|by simplify_eq/=].
  exists u. split; [done|]. cbv zeta.
  destruct (fails env (FsAdd _)) eqn:Hadd in Hrun; [by simplify_eq/=|].
  destruct (files st !! auto_id env (drawn st)) eqn:Hfresh in Hrun;
    [by simplify_eq/=|].
  destruct (fails env (FsGet _)) eqn:Hget in Hrun; [by simplify_eq/=|].
  simpl in Hrun. rewrite lookup_insert_eq in Hrun. by simplify_eq/=.
Qed.

(** C10: when [POST /files] creates a record (status 201), the record is
    new, the response echoes it, and its [size] is [null] whenever the
    supplied [size] is falsy: in particular for a size of 0 and for an absent
    size, which are then indistinguishable; the stored and echoed [size] is
    never the number 0. *)
Theorem files_falsy_size_stored_as_null
    (env : Env) (st : State) (req : Request) (resp : Response) (st' : State) :
  serve Files req env st = (Ok resp, st') →
  status resp = 201 →
  ∃ id doc,
    files st !! id = None
    ∧ files st' = <[id := doc]> (files st)
    ∧ json resp = with_id id doc
    ∧ json resp !! "size" = doc !! "size"
    ∧ (truthy (prop (body req) "size") = false → doc !! "size" = Some JNull)
    ∧ (body req !! "size" = Some (JNum 0) → doc !! "size" = Some JNull)
    ∧ (body req !! "size" = None → doc !! "size" = Some JNull)
    ∧ doc !! "size" ≠ Some (JNum 0)
    ∧ json resp !! "size" ≠ Some (JNum 0).
Proof.
  intros Hrun Hok.
  destruct (serve_cases _ _ _ _ _ _ Hrun) as [[H401 _]|(bearer & u & Hv & Hh)].
  { rewrite H401 in Hok. done. }
  destruct (post_files_created _ _ _ _ _ Hh Hok)
    as (u' & Hu & _ & Hfresh & -> & ->).
  simpl in Hu. simplify_eq. cbv zeta in *.
  cbn [body set_user uid drawn files log] in *.
  set (now := server_time env _).
  set (record := file_record _ _ _ _ _ _).
  assert (Hsize : (stamp now <$> record) !! "size"
                  = Some (stamp now (js_or (prop (body req) "size") JNull))).
  { rewrite lookup_fmap. unfold record. by rewrite file_record_size. }
  exists (auto_id env (drawn st)), (stamp now <$> record).
  cbn [json res_status_json].
  split_and!; [done|reflexivity|reflexivity|..].
  - rewrite Hsize. by apply with_id_lookup.
  - intros Hfalsy. by rewrite Hsize, stored_size_falsy.
  - intros H0. rewrite Hsize, stored_size_falsy; [done|].
    unfold prop. by rewrite H0.
  - intros Hnone. rewrite Hsize, stored_size_falsy; [done|].
    unfold prop. by rewrite Hnone.
  - rewrite Hsize. intros [= H]. by apply stored_size_never_zero in H.
  - rewrite (with_id_lookup _ _ _ _ Hsize). intros [= H].
    by apply stored_size_never_zero in H.
Qed.

(** *** Download URLs *)

Lemma matches_owner uid key doc :
  matches (owner_filters uid key) doc = true
  ↔ doc !! "uid" = Some (JStr uid) ∧ doc !! "objectKey" = Some key.
Proof.
  unfold matches, owner_filters. cbn [forallb].
  rewrite andb_true_r, andb_true_iff, !bool_decide_eq_true. done.
Qed.

Lemma found_owned st uid key id doc :
  (id, doc) ∈ found st uid key ↔ owned_by st uid key id doc.
Proof.
  unfold found, owned_by. rewrite list_elem_of_In, filter_In, <- list_elem_of_In.
  by rewrite elem_of_map_to_list, matches_owner.
Qed.

Lemma found_nil st uid key : found st uid key = [] ↔ no_record_of st uid key.
Proof.
  split.
  - intros Hnil id doc Hdoc Hkey Huid.
    assert (Hin : (id, doc) ∈ found st uid key) by by apply found_owned.
    rewrite Hnil in Hin. by apply elem_of_nil in Hin.
  - intros Hnone. destruct (found st uid key) as [|[id doc] l] eqn:Hf; [done|].
    assert (Hin : (id, doc) ∈ found st uid key) by (rewrite Hf; left).
    apply found_owned in Hin as (Hdoc & Huid & Hkey).
    by destruct (Hnone id doc Hdoc Hkey).
Qed.

(** [POST /download-url] once the key is there and the query went through. *)
Lemma post_download_url_run env st req u key :
  user req = Some u →
  prop (body req) "objectKey" = key →
  truthy key = true →
  let query := FsQuery (owner_filters (uid u) key) (Some 1%nat) in
  let sign := GetSignedUrl (GetObjectCommand (S3_BUCKET env) key) 300 in
  fails env query = None →
  post_download_url req env st
  = match found st (uid u) key with
    | [] =>
        (Ok (res_status_json 404 (error_body "File not found for this user")),
         log query st)
    | doc :: _ =>
        match fails env sign with
        | Some _ =>
            (Ok (res_status_json 500 (error_body "Failed to generate download URL")),
             log sign (log query st))
        | None =>
            (Ok (res_json
                   {[ "downloadUrl" :=
                        JStr (presigned env (GetObjectCommand (S3_BUCKET env) key) 300);
                      "objectKey" := key;
                      "originalName" := prop (snd doc) "originalName";
                      "mimeType" := prop (snd doc) "mimeType" ]}),
             log sign (log query st))
        end
    end.
Proof.
  intros Hu Hkey Htruthy query sign Hquery.
  unfold post_download_url. unfold_monad. rewrite Hkey, Htruthy, Hu. simpl.
  fold (owner_filters (uid u) key). fold query. rewrite Hquery.
  change (List.filter _ _) with (found st (uid u) key).
  destruct (found st (uid u) key) as [|doc l]; simpl; [done|].
  change (60 * 5) with 300. fold sign. by destruct (fails env sign).
Qed.

(** C1: for an authenticated [POST /download-url] with an [objectKey] whose
    ownership query goes through: if no record for that key belongs to the
    caller (none exists, or each belongs to another uid) the answer is 404
    and only the identity check and the query were made, so no download URL
    was signed; if some record for that key belongs to the caller and the
    signing succeeds, the answer is 200 with the signed URL, the key, and the
    [originalName] and [mimeType] of such a record. *)
Theorem download_url_only_for_owner
    (env : Env) (st : State) (req : Request) (token uid : jsstring) (key : JsVal) :
  verified env req token uid →
  body req !! "objectKey" = Some key →
  truthy key = true →
  let query := FsQuery (owner_filters uid key) (Some 1%nat) in
  let sign := GetSignedUrl (GetObjectCommand (S3_BUCKET env) key) 300 in
  fails env query = None →
  (no_record_of st uid key →
     ∃ st',
       serve DownloadUrl req env st
       = (Ok (res_status_json 404 (error_body "File not found for this user")), st')
       ∧ trace st' = trace st ++ [VerifyIdToken token; query]
       ∧ files st' = files st ∧ objects st' = objects st)
  ∧ ((∃ id doc, owned_by st uid key id doc) →
     fails env sign = None →
     ∃ id doc st',
       owned_by st uid key id doc
       ∧ serve DownloadUrl req env st
         = (Ok (res_json
                  {[ "downloadUrl" :=
                       JStr (presigned env (GetObjectCommand (S3_BUCKET env) key) 300);
                     "objectKey" := key;
                     "originalName" := prop doc "originalName";
                     "mimeType" := prop doc "mimeType" ]}), st')
       ∧ trace st' = trace st ++ [VerifyIdToken token; query; sign]
       ∧ files st' = files st ∧ objects st' = objects st).
Proof.
  intros Hv Hkey Htruthy query sign Hquery.
  rewrite (serve_verified env st req token uid DownloadUrl Hv).
  cbn [handler].
  rewrite (post_download_url_run env _ _ {| uid := uid |} key);
    [|done|by unfold prop; cbn [body set_user]; rewrite Hkey|done|done].
  cbn -[found]. fold query sign.
  assert (Hsame : found (log (VerifyIdToken token) st) uid key = found st uid key)
    by done.
  rewrite Hsame. split.
  - intros Hnone. apply found_nil in Hnone. rewrite Hnone.
    eexists. split; [reflexivity|]. cbn [trace log files objects].
    by rewrite <- app_assoc.
  - intros (id & doc & Hown) Hsign.
    destruct (found st uid key) as [|[id' doc'] l] eqn:Hf.
    { apply found_owned in Hown. rewrite Hf in Hown. by apply elem_of_nil in Hown. }
    rewrite Hsign. exists id', doc'. eexists. split; [|split; [reflexivity|]].
    + apply found_owned. rewrite Hf. left.
    + cbn [trace log files objects]. by rewrite <- !app_assoc.
Qed.

(** *** Deleting a file *)

Lemma strict_equal_string v s : strict_equal v (JStr s) = true ↔ v = JStr s.
Proof.
  destruct v; simpl; try (split; [done|by intros [=]]).
  rewrite bool_decide_eq_true. split; [by intros ->|by intros [=]].
Qed.

Lemma prop_is_string (o : JsObj) k s : prop o k = JStr s ↔ o !! k = Some (JStr s).
Proof.
  unfold prop. destruct (o !! k) as [v|]; simpl; [|done].
  split; [by intros ->|by intros [=]].
Qed.

Lemma owner_check (data : JsObj) uid :
  negb (strict_equal (prop data "uid") (JStr uid)) = false
  ↔ data !! "uid" = Some (JStr uid).
Proof. by rewrite negb_false_iff, strict_equal_string, prop_is_string. Qed.

(** [DELETE /files/:id] for a known user and a non-empty id, branch by
    branch. *)
Lemma delete_files_id_run env st req caller :
  user req = Some {| uid := caller |} →
  params_id req ≠ [] →
  let id := params_id req in
  let st1 := log (FsGet id) st in
  delete_files_id req env st
  = if fails env (FsGet id) is Some _ then (Ok delete_failed, st1) else
    match files st !! id with
    | None => (Ok (res_status_json 404 (error_body "File not found")), st1)
    | Some data =>
        if negb (strict_equal (prop data "uid") (JStr caller)) then
          (Ok (res_status_json 403 (error_body "Not authorized to delete this file")),
           st1)
        else if negb (truthy (prop data "objectKey")) then
          (Ok (res_status_json 500 (error_body "File metadata missing objectKey")),
           st1)
        else
          let key := prop data "objectKey" in
          let del := S3Send (DeleteObjectCommand (S3_BUCKET env) key) in
          if fails env del is Some _ then (Ok delete_failed, log del st1) else
          let st2 := log (FsDelete id) (without_object key (log del st1)) in
          if fails env (FsDelete id) is Some _ then (Ok delete_failed, st2)
          else (Ok deleted, set_files (delete id (files st2)) st2)
    end.
Proof.
  intros Hu Hid id st1. subst id st1. unfold delete_files_id. unfold_monad.
  rewrite Hu. destruct (params_id req) as [|c i]; [done|]. simpl.
  destruct (fails env (FsGet (c :: i))); [reflexivity|].
  destruct (files st !! _) as [data|]; [|reflexivity].
  destruct (negb (strict_equal _ _)); [reflexivity|].
  destruct (negb (truthy _)); [reflexivity|]. cbv zeta.
  destruct (fails env (S3Send _)); [reflexivity|].
  destruct (fails env (FsDelete _)); reflexivity.
Qed.

(** An absent field reads as [undefined], which is falsy. *)
Lemma absent_falsy (o : JsObj) k : o !! k = None → truthy (prop o k) = false.
Proof. unfold prop. by intros ->. Qed.

Lemma owner_mismatch (data : JsObj) uid :
  data !! "uid" ≠ Some (JStr uid) →
  negb (strict_equal (prop data "uid") (JStr uid)) = true.
Proof.
  intros Hne. apply not_false_iff_true. by rewrite owner_check.
Qed.

(** C2, as amended: for an authenticated [DELETE /files/:id] whose lookup
    goes through: no record under the id gives 404; a record whose [uid] is
    not the caller's gives 403; a record of the caller whose [objectKey] is
    absent or falsy (null, the empty string, 0, [NaN], false) gives 500, and
    in these three cases nothing is deleted; a record of the caller with a
    truthy [objectKey], when both deletions succeed, has its object and its
    record deleted and the answer is [{success: true}]. *)
Theorem delete_file_outcomes
    (env : Env) (st : State) (req : Request) (token uid : jsstring) :
  verified env req token uid →
  params_id req ≠ [] →
  let id := params_id req in
  fails env (FsGet id) = None →
  let st1 := log (FsGet id) (log (VerifyIdToken token) st) in
  (files st !! id = None →
     serve DeleteFile req env st
     = (Ok (res_status_json 404 (error_body "File not found")), st1))
  ∧ (∀ data,
       files st !! id = Some data → data !! "uid" ≠ Some (JStr uid) →
       serve DeleteFile req env st
       = (Ok (res_status_json 403 (error_body "Not authorized to delete this file")),
          st1))
  ∧ (∀ data,
       files st !! id = Some data → data !! "uid" = Some (JStr uid) →
       data !! "objectKey" = None ∨ truthy (prop data "objectKey") = false →
       serve DeleteFile req env st
       = (Ok (res_status_json 500 (error_body "File metadata missing objectKey")),
          st1))
  ∧ (∀ data key,
       files st !! id = Some data → data !! "uid" = Some (JStr uid) →
       data !! "objectKey" = Some key → truthy key = true →
       let del := S3Send (DeleteObjectCommand (S3_BUCKET env) key) in
       fails env del = None → fails env (FsDelete id) = None →
       ∃ st',
         serve DeleteFile req env st = (Ok (res_json {[ "success" := JBool true ]}), st')
         ∧ files st' = delete id (files st)
         ∧ objects st' = objects (without_object key st)
         ∧ trace st' = trace st ++ [VerifyIdToken token; FsGet id; del; FsDelete id]).
Proof.
  intros Hv Hid id Hget st1.
  rewrite (serve_verified env st req token uid DeleteFile Hv). cbn [handler].
  rewrite (delete_files_id_run env _ _ uid); [|done..].
  cbn [params_id set_user files log]. fold id. rewrite Hget. fold st1.
  split_and!.
  - by intros ->.
  - intros data -> Hne. by rewrite (owner_mismatch _ _ Hne).
  - intros data -> Howner Hkey.
    apply owner_check in Howner. cbn in Howner |- *. rewrite Howner.
    assert (Hfalsy : truthy (prop data "objectKey") = false).
    { destruct Hkey as [Hkey|Hkey]; [by apply absent_falsy|done]. }
    by rewrite Hfalsy.
  - intros data key -> Howner Hkey Htruthy Hdel Hfs.
    apply owner_check in Howner. cbn in Howner |- *. rewrite Howner.
    assert (Hprop : prop data "objectKey" = key) by (unfold prop; by rewrite Hkey).
    rewrite Hprop, Htruthy. cbn. rewrite Hdel, Hfs.
    eexists. split; [reflexivity|]. split_and!.
    + by destruct key.
    + by destruct key.
    + destruct key; cbn; by rewrite <- !app_assoc.
Qed.

Lemma without_object_trace key st : trace (without_object key st) = trace st.
Proof. by destruct key. Qed.

Lemma without_object_files key st : files (without_object key st) = files st.
Proof. by destruct key. Qed.

Lemma delete_files_id_no_id env st req :
  params_id req = [] →
  ∃ resp, delete_files_id req env st = (Ok resp, st).
Proof.
  intros Hid. unfold delete_files_id. unfold_monad. rewrite Hid.
  destruct (user req); simpl; eauto.
Qed.

Lemma delete_file_calls env st req :
  ∃ resp st' calls,
    serve DeleteFile req env st = (Ok resp, st')
    ∧ trace st' = trace st ++ calls
    ∧ delete_calls env resp st st' calls.
Proof.
  assert (Hno : token_missing req ∨ token_rejected env req →
                ∃ resp st' calls,
                  serve DeleteFile req env st = (Ok resp, st')
                  ∧ trace st' = trace st ++ calls
                  ∧ delete_calls env resp st st' calls).
  { intros Hno.
    destruct (authMiddleware_unauthenticated env st req (handler DeleteFile) Hno)
      as (message & st' & calls & Hrun & Hfiles & Hobjs & Htrace & Hcalls).
    eexists _, st', calls. split_and!; [exact Hrun|exact Htrace|].
    apply stopped_early; try done. destruct Hcalls; auto. }
  destruct (bearer_token req) as [[|c token]|] eqn:Htok;
    [| destruct (identity env (c :: token)) as [uid|] eqn:Hident |].
  - apply Hno. left. by right.
  - clear Hno.
    assert (Hv : verified env req (c :: token) uid) by done.
    rewrite (serve_verified env st req _ uid DeleteFile Hv). cbn [handler].
    destruct (decide (params_id req = [])) as [Hid|Hid].
    { destruct (delete_files_id_no_id env (log (VerifyIdToken (c :: token)) st)
                  (set_user {| uid := uid |} req) Hid) as (resp & ->).
      eexists _, _, [_]. split_and!; try done. apply stopped_early; eauto. }
    rewrite (delete_files_id_run env _ _ uid); [|done..].
    cbn [params_id set_user files log].
    set (id := params_id req). set (st1 := log (FsGet id) _).
    assert (Hst1 : trace st1 = trace st ++ [VerifyIdToken (c :: token); FsGet id])
      by (cbn; by rewrite <- app_assoc).
    assert (Hearly : ∀ resp, delete_calls env resp st st1
                               [VerifyIdToken (c :: token); FsGet id]).
    { intros resp. apply stopped_early; eauto. }
    assert (Hstop : ∀ resp,
              ∃ resp' st' calls,
                (Ok resp, st1) = (Ok resp', st')
                ∧ trace st' = trace st ++ calls
                ∧ delete_calls env resp' st st' calls)
      by (intros resp; exists resp, st1, [VerifyIdToken (c :: token); FsGet id];
          split_and!; [reflexivity|exact Hst1|apply Hearly]).
    destruct (fails env (FsGet id)); [apply Hstop|].
    destruct (files st !! id) as [data|]; [|apply Hstop].
    destruct (negb (strict_equal _ _)); [apply Hstop|].
    destruct (negb (truthy _)); [apply Hstop|]. cbv zeta.
    set (key := prop data "objectKey").
    destruct (fails env (S3Send _)) as [message|] eqn:Hdel.
    + eexists _, _, _. split; [reflexivity|]. split.
      * cbn. by rewrite <- !app_assoc.
      * apply object_delete_failed; try done. by rewrite Hdel.
    + destruct (fails env (FsDelete id));
        (eexists _, _, _; split; [reflexivity|]; split;
         [ cbn [trace set_files log]; rewrite without_object_trace; cbn;
           by rewrite <- !app_assoc
         | by apply object_deleted ]).
  - apply Hno. right. by exists (c :: token).
  - apply Hno. left. by left.
Qed.

(** C3: in every run of [DELETE /files/:id], a metadata deletion is
    preceded in the trace by the object-store deletion; and when an
    object-store deletion was attempted and failed, the answer is 500, no
    metadata deletion is attempted, and the Firestore collection and the
    bucket are as they were before the request. *)
Theorem delete_object_before_metadata (env : Env) (st : State) (req : Request) :
  ∃ resp st' calls,
    serve DeleteFile req env st = (Ok resp, st')
    ∧ trace st' = trace st ++ calls
    ∧ (∀ before after id,
         calls = before ++ FsDelete id :: after →
         ∃ key, S3Send (DeleteObjectCommand (S3_BUCKET env) key) ∈ before)
    ∧ (∀ command,
         S3Send command ∈ calls → fails env (S3Send command) ≠ None →
         status resp = 500
         ∧ (∀ id, FsDelete id ∉ calls)
         ∧ files st' = files st ∧ objects st' = objects st).
Proof.
  destruct (delete_file_calls env st req) as (resp & st' & calls & Hrun & Htrace & Hcalls).
  exists resp, st', calls. split_and!; try done.
  - intros before after id Heq. destruct Hcalls as [calls Hshape _ _|????|token id' key _].
    + destruct Hshape as [->|[[t ->]|(t & i & ->)]];
        repeat (destruct before as [|? before]; simplify_eq/=).
    + repeat (destruct before as [|? before]; simplify_eq/=).
    + repeat (destruct before as [|? before]; simplify_eq/=).
      exists key. rewrite !elem_of_cons. auto.
  - intros command Hin Hfail.
    destruct Hcalls as [calls Hshape Hf Ho|token id key Hdel H500 Hf Ho|token id' key Hdel].
    + exfalso. destruct Hshape as [->|[[t ->]|(t & i & ->)]];
        rewrite ?elem_of_cons, elem_of_nil in Hin; intuition congruence.
    + split_and!; try done. intros id'.
      rewrite !elem_of_cons, elem_of_nil. intuition congruence.
    + exfalso. apply Hfail.
      rewrite !elem_of_cons, elem_of_nil in Hin.
      destruct Hin as [|[|[[= ->]|[|[]]]]]; done.
Qed.

Example scenario_upload :
  ∃ resp st',
    serve UploadUrl
      (Scenario.request "token-of-U1"
         {[ "fileName" := JStr (lit "a/b/report.pdf");
            "fileType" := JStr (lit "application/pdf") ]} "")
      Scenario.env Scenario.nothing = (Ok resp, st')
    ∧ status resp = 200
    ∧ json resp !! "objectKey" = Some (JStr Scenario.report_key).
Proof. eexists _, _. split; [vm_compute; reflexivity|]. by vm_compute. Qed.

(** ** The claims on the concrete deployment *)

Import Scenario.

Lemma verified_U1 payload id :
  verified env (request "token-of-U1" payload id) (lit "token-of-U1") U1.
Proof. split_and!; [reflexivity|discriminate|reflexivity]. Defined.

Lemma verified_U2 payload id :
  verified env (request "token-of-U2" payload id) (lit "token-of-U2") U2.
Proof. split_and!; [reflexivity|discriminate|reflexivity]. Defined.

Lemma report_not_of_U2 : report !! "uid" ≠ Some (JStr U2).
Proof. apply (bool_decide_unpack _). vm_compute. exact I. Defined.

(** U2 asks for the key of U1's file and gets 404; U1 asks and gets the URL
    with the names of the record. *)
Lemma download_url_only_for_owner_witness :
  (no_record_of one_file U2 (JStr report_key)
   ∧ ∃ st', serve DownloadUrl (download_report "token-of-U2") env one_file
            = (Ok (res_status_json 404 (error_body "File not found for this user")),
               st'))
  ∧ (owned_by one_file U1 (JStr report_key) (lit "f1") report
     ∧ ∃ resp st', serve DownloadUrl (download_report "token-of-U1") env one_file
                   = (Ok resp, st')
                   ∧ status resp = 200
                   ∧ json resp !! "originalName" = Some (JStr (lit "report.pdf"))).
Proof.
  split.
  - assert (Hnone : no_record_of one_file U2 (JStr report_key)).
    { intros id doc Hdoc _. cbn [files one_file] in Hdoc.
      apply lookup_singleton_Some in Hdoc as [_ <-]. exact report_not_of_U2. }
    split; [exact Hnone|].
    destruct (proj1 (download_url_only_for_owner env one_file
                       (download_report "token-of-U2") _ U2 (JStr report_key)
                       (verified_U2 _ _) eq_refl eq_refl eq_refl) Hnone)
      as (st' & Hrun & _).
    by exists st'.
  - assert (Hown : owned_by one_file U1 (JStr report_key) (lit "f1") report)
      by (repeat split; reflexivity).
    split; [exact Hown|].
    destruct (proj2 (download_url_only_for_owner env one_file
                       (download_report "token-of-U1") _ U1 (JStr report_key)
                       (verified_U1 _ _) eq_refl eq_refl eq_refl)
                (ex_intro _ _ (ex_intro _ _ Hown)) eq_refl)
      as (id & doc & st' & (Hdoc & _) & Hrun & _).
    cbn [files one_file] in Hdoc.
    apply lookup_singleton_Some in Hdoc as [_ <-].
    eexists _, st'. split; [exact Hrun|]. split; reflexivity.
Defined.

(** U2 may not delete the file of U1 (403, nothing changes); U1 deletes it,
    and both the record and the object are gone. *)
Lemma delete_file_outcomes_witness :
  (report !! "uid" ≠ Some (JStr U2)
   ∧ serve DeleteFile (delete_id "token-of-U2" "f1") env one_file
     = (Ok (res_status_json 403 (error_body "Not authorized to delete this file")),
        log (FsGet (lit "f1")) (log (VerifyIdToken (lit "token-of-U2")) one_file)))
  ∧ (report !! "objectKey" = Some (JStr report_key)
     ∧ ∃ st', serve DeleteFile (delete_id "token-of-U1" "f1") env one_file
              = (Ok (res_json {[ "success" := JBool true ]}), st')
              ∧ files st' = ∅ ∧ objects st' = ∅).
Proof.
  assert (Hid : ∀ token, params_id (delete_id token "f1") ≠ [])
    by (intros; discriminate).
  split.
  - split; [exact report_not_of_U2|].
    destruct (delete_file_outcomes env one_file (delete_id "token-of-U2" "f1")
                _ U2 (verified_U2 _ _) (Hid _) eq_refl) as (_ & H403 & _).
    exact (H403 report eq_refl report_not_of_U2).
  - assert (Hkey : report !! "objectKey" = Some (JStr report_key)) by reflexivity.
    split; [exact Hkey|].
    destruct (delete_file_outcomes env one_file (delete_id "token-of-U1" "f1")
                _ U1 (verified_U1 _ _) (Hid _) eq_refl) as (_ & _ & _ & Hdeleted).
    destruct (Hdeleted report (JStr report_key) eq_refl eq_refl Hkey eq_refl
                eq_refl eq_refl)
      as (st' & Hrun & Hfiles & Hobjects & _).
    exists st'. split; [exact Hrun|]. rewrite Hfiles, Hobjects.
    split; [reflexivity|]. apply (bool_decide_unpack _). vm_compute. exact I.
Defined.

(** The claim C2 as stated (a record of the caller that has an [objectKey]
    field is deleted) fails on a record whose [objectKey] is the empty
    string: with every store call succeeding, the answer is 500, not
    [{success: true}], and neither the record nor the object is deleted. *)
Lemma delete_record_with_empty_key_refused :
  verified env (delete_id "token-of-U1" "f2") (lit "token-of-U1") U1
  ∧ (∀ c, fails env c = None)
  ∧ files one_empty_key !! lit "f2" = Some empty_key_record
  ∧ empty_key_record !! "uid" = Some (JStr U1)
  ∧ empty_key_record !! "objectKey" = Some (JStr [])
  ∧ serve DeleteFile (delete_id "token-of-U1" "f2") env one_empty_key
    = (Ok (res_status_json 500 (error_body "File metadata missing objectKey")),
       log (FsGet (lit "f2")) (log (VerifyIdToken (lit "token-of-U1")) one_empty_key))
  ∧ ¬ (∃ st', serve DeleteFile (delete_id "token-of-U1" "f2") env one_empty_key
              = (Ok (res_json {[ "success" := JBool true ]}), st')).
Proof.
  assert (Hrun : serve DeleteFile (delete_id "token-of-U1" "f2") env one_empty_key
                 = (Ok (res_status_json 500
                          (error_body "File metadata missing objectKey")),
                    log (FsGet (lit "f2"))
                      (log (VerifyIdToken (lit "token-of-U1")) one_empty_key)))
    by reflexivity.
  split; [apply verified_U1|]. split; [reflexivity|].
  split; [reflexivity|]. split; [reflexivity|]. split; [reflexivity|].
  split; [exact Hrun|].
  intros [st' Hok]. rewrite Hrun in Hok. discriminate Hok.
Qed.

(** With the object store down, U1's delete is answered 500 and the record
    and the object are still there. *)
Example scenario_delete_s3_down :
  serve DeleteFile (delete_id "token-of-U1" "f1") env_s3_down one_file
  = (Ok (res_status_json 500 (error_body "Failed to delete file")),
     log (S3Send (DeleteObjectCommand bucket (JStr report_key)))
       (log (FsGet (lit "f1")) (log (VerifyIdToken (lit "token-of-U1")) one_file))).
Proof. reflexivity. Qed.

(** A request without an [Authorization] header and one with a token the
    provider does not know are answered 401 on the delete route, and the
    file of U1 is still there. *)
Lemma unauthenticated_401_before_handler_witness :
  (token_missing (anonymous ∅ "f1")
   ∧ ∃ message st',
       serve DeleteFile (anonymous ∅ "f1") env one_file
       = (Ok (res_status_json 401 (error_body message)), st')
       ∧ files st' = files one_file ∧ objects st' = objects one_file)
  ∧ (token_rejected env (delete_id "stolen" "f1")
     ∧ ∃ message st',
         serve DeleteFile (delete_id "stolen" "f1") env one_file
         = (Ok (res_status_json 401 (error_body message)), st')
         ∧ files st' = files one_file ∧ objects st' = objects one_file).
Proof.
  split.
  - assert (Hmissing : token_missing (anonymous ∅ "f1"))
      by (by apply no_header_token_missing).
    split; [exact Hmissing|].
    destruct (proj1 (unauthenticated_401_before_handler DeleteFile env one_file
                       (anonymous ∅ "f1")) (or_introl Hmissing))
      as (message & st' & Hrun & _ & Hfiles & Hobjects & _).
    by exists message, st'.
  - assert (Hrejected : token_rejected env (delete_id "stolen" "f1")).
    { exists (lit "stolen"). split; [reflexivity|].
      split; [discriminate|reflexivity]. }
    split; [exact Hrejected|].
    destruct (proj1 (unauthenticated_401_before_handler DeleteFile env one_file
                       (delete_id "stolen" "f1")) (or_intror Hrejected))
      as (message & st' & Hrun & _ & Hfiles & Hobjects & _).
    by exists message, st'.
Defined.

(** The upload of the spec's scenario: [a/b/report.pdf] for U1 gets a key
    under U1's namespace that ends in [-report.pdf]. *)
Lemma upload_url_key_in_own_namespace_witness :
  upload_run = (Ok (response_of upload_run), state_of upload_run)
  ∧ status (response_of upload_run) = 200
  ∧ json (response_of upload_run) !! "objectKey"
    = Some (JStr (getUserStorageId U1 ++ lit "/" ++ random_uuid env 0 ++ lit "-"
                  ++ lit "report.pdf"))
  ∧ json (response_of upload_run) !! "objectKey" = Some (JStr report_key).
Proof.
  assert (Hrun : upload_run = (Ok (response_of upload_run), state_of upload_run))
    by reflexivity.
  assert (Hok : status (response_of upload_run) = 200) by reflexivity.
  split; [exact Hrun|]. split; [exact Hok|].
  destruct (upload_url_key_in_own_namespace env nothing upload_report
              (response_of upload_run) (state_of upload_run) Hrun Hok)
    as (bearer & uid & name & token & (Hbearer & _ & Huid) & Hname & _ & ->
        & Hjson & _).
  injection Hbearer as <-. injection Huid as <-. injection Hname as <-.
  rewrite Hjson. split; [reflexivity|vm_compute; reflexivity].
Defined.

(** An upload request with no [fileName] is answered 400 and leaves only
    the identity check in the trace. *)
Lemma missing_field_400_no_store_call_witness :
  lacks_required UploadUrl upload_without_name
  ∧ ∃ message st',
      serve UploadUrl upload_without_name env one_file
      = (Ok (res_status_json 400 (error_body message)), st')
      ∧ files st' = files one_file ∧ objects st' = objects one_file
      ∧ trace st' = [VerifyIdToken (lit "token-of-U1")].
Proof.
  assert (Hlacks : lacks_required UploadUrl upload_without_name)
    by (left; reflexivity).
  split; [exact Hlacks|].
  destruct (missing_field_400_no_store_call UploadUrl env one_file
              upload_without_name _ U1 (verified_U1 _ _) Hlacks)
    as (message & st' & Hrun & _ & Hfiles & Hobjects & Htrace & _).
  by exists message, st'.
Defined.

(** Registering the report with [size: 0] answers 201 and stores and echoes
    [size: null]. *)
Lemma files_falsy_size_stored_as_null_witness :
  register_run = (Ok (response_of register_run), state_of register_run)
  ∧ status (response_of register_run) = 201
  ∧ body register_report_size_0 !! "size" = Some (JNum 0)
  ∧ json (response_of register_run) !! "size" = Some JNull
  ∧ ∃ id doc,
      files (state_of register_run) !! id = Some doc ∧ doc !! "size" = Some JNull.
Proof.
  assert (Hrun : register_run
                 = (Ok (response_of register_run), state_of register_run))
    by reflexivity.
  assert (Hcreated : status (response_of register_run) = 201) by reflexivity.
  assert (Hzero : body register_report_size_0 !! "size" = Some (JNum 0))
    by reflexivity.
  split; [exact Hrun|]. split; [exact Hcreated|]. split; [exact Hzero|].
  destruct (files_falsy_size_stored_as_null env nothing register_report_size_0
              (response_of register_run) (state_of register_run) Hrun Hcreated)
    as (id & doc & _ & Hfiles & _ & Hecho & _ & Hnull & _).
  split.
  - rewrite Hecho. by apply Hnull.
  - exists id, doc. split; [|by apply Hnull].
    rewrite Hfiles. apply lookup_insert_eq.
Defined.

(** ** The scenario of the spec, end to end *)

Example scenario_end_to_end :
  (status (response_of step1) = 200
   ∧ json (response_of step1) !! "objectKey" = Some (JStr report_key))
  ∧ (status (response_of step2) = 201
     ∧ json (response_of step2) !! "uid" = Some (JStr U1)
     ∧ json (response_of step2) !! "id" = Some (JStr (lit "doc-1")))
  ∧ json (response_of step3) !! "files"
    = Some (JArray [JObject (json (response_of step2))])
  ∧ json (response_of step4) !! "files" = Some (JArray [])
  ∧ status (response_of step5) = 404
  ∧ (response_of step6 = deleted
     ∧ files (state_of step6) = ∅ ∧ objects (state_of step6) = ∅)
  ∧ json (response_of step7) !! "files" = Some (JArray []).
Proof.
  split; [split; [reflexivity|vm_compute; reflexivity]|].
  split_and!; reflexivity.
Qed.

(** ** Further properties of the handlers *)

(** A required field that is present but falsy (null, the empty string, 0,
    false) is treated as missing: the answer is 400 and, as for a missing
    field, only the identity check is in the trace. *)
Theorem falsy_required_field_400
    (env : Env) (st : State) (req : Request) (token uid : jsstring) :
  verified env req token uid →
  (truthy (prop (body req) "fileName") = false
   ∨ truthy (prop (body req) "fileType") = false →
   serve UploadUrl req env st
   = (Ok (res_status_json 400 (error_body "fileName and fileType are required")),
      log (VerifyIdToken token) st))
  ∧ (truthy (prop (body req) "objectKey") = false
     ∨ truthy (prop (body req) "originalName") = false
     ∨ truthy (prop (body req) "mimeType") = false →
     serve Files req env st
     = (Ok (res_status_json 400
              (error_body "objectKey, originalName, and mimeType are required")),
        log (VerifyIdToken token) st))
  ∧ (truthy (prop (body req) "objectKey") = false →
     serve DownloadUrl req env st
     = (Ok (res_status_json 400 (error_body "objectKey is required")),
        log (VerifyIdToken token) st)).
Proof.
  intros Hv. rewrite !(serve_verified env st req token uid _ Hv). cbn [handler].
  split_and!; intros H.
  - by apply post_upload_url_invalid.
  - by apply post_files_invalid.
  - by apply post_download_url_invalid.
Qed.

Lemma falsy_required_field_400_witness :
  truthy (prop {[ "objectKey" := JStr [] ]} "objectKey") = false
  ∧ serve DownloadUrl (request "token-of-U1" {[ "objectKey" := JStr [] ]} "")
      env one_file
    = (Ok (res_status_json 400 (error_body "objectKey is required")),
       log (VerifyIdToken (lit "token-of-U1")) one_file).
Proof.
  split; [reflexivity|].
  apply (falsy_required_field_400 env one_file _ _ U1 (verified_U1 _ _)).
  reflexivity.
Defined.

(** The record [POST /files] creates carries the verified caller's uid, the
    namespace recomputed from it and the configured bucket, whatever the
    body says; a string [objectKey] is stored as the client sent it, without
    any check against the caller's namespace; [createdAt] is a timestamp
    assigned by the store. *)
Theorem files_record_fields
    (env : Env) (st : State) (req : Request) (resp : Response) (st' : State) :
  serve Files req env st = (Ok resp, st') →
  status resp = 201 →
  ∃ token uid id doc,
    verified env req token uid
    ∧ files st !! id = None
    ∧ files st' = <[id := doc]> (files st)
    ∧ objects st' = objects st
    ∧ doc !! "uid" = Some (JStr uid)
    ∧ doc !! "userStorageId" = Some (JStr (getUserStorageId uid))
    ∧ doc !! "bucket" = Some (JStr (S3_BUCKET env))
    ∧ (∀ key, body req !! "objectKey" = Some (JStr key) →
              doc !! "objectKey" = Some (JStr key))
    ∧ (∃ seconds, doc !! "createdAt" = Some (JTimestamp seconds 0))
    ∧ json resp = with_id id doc.
Proof.
  intros Hrun Hok.
  destruct (serve_cases _ _ _ _ _ _ Hrun) as [[H401 _]|(token & u & Hv & Hh)].
  { rewrite H401 in Hok. done. }
  destruct (post_files_created _ _ _ _ _ Hh Hok)
    as (u' & Hu & _ & Hfresh & -> & ->).
  simpl in Hu. simplify_eq. cbv zeta in *.
  cbn [body set_user uid drawn files log] in *.
  set (now := server_time env _).
  eexists token, u, _, _.
  split_and!; [done|exact Hfresh|reflexivity|reflexivity|..|reflexivity].
  - rewrite lookup_fmap. unfold file_record. by simplify_map_eq.
  - rewrite lookup_fmap. unfold file_record. by simplify_map_eq.
  - rewrite lookup_fmap. unfold file_record. by simplify_map_eq.
  - intros key Hkey. rewrite lookup_fmap. unfold file_record, prop.
    rewrite Hkey. by simplify_map_eq.
  - exists now. rewrite lookup_fmap. unfold file_record. by simplify_map_eq.
Qed.

Lemma files_record_fields_witness :
  foreign1 = (Ok (response_of foreign1), state_of foreign1)
  ∧ status (response_of foreign1) = 201
  ∧ json (response_of foreign1) !! "uid" = Some (JStr U2)
  ∧ json (response_of foreign1) !! "objectKey" = Some (JStr report_key).
Proof.
  assert (Hrun : foreign1 = (Ok (response_of foreign1), state_of foreign1))
    by reflexivity.
  assert (Hok : status (response_of foreign1) = 201) by reflexivity.
  split; [exact Hrun|]. split; [exact Hok|].
  destruct (files_record_fields env one_file (register_report "token-of-U2")
              _ _ Hrun Hok)
    as (token & uid & id & doc & (Htoken & _ & Huid) & _ & _ & _ & Hdocuid & _ & _
        & Hkey & _ & Hjson).
  injection Htoken as <-. injection Huid as <-.
  rewrite Hjson. split.
  - by apply with_id_lookup.
  - apply with_id_lookup. apply Hkey. reflexivity.
Defined.

(** The key of another user's object can be registered and is then served:
    after U2 registers the key of U1's file, U2's request for a download URL
    of that key is answered 200. *)
Example scenario_foreign_key :
  owned_by one_file U1 (JStr report_key) (lit "f1") report
  ∧ startsWith (getUserStorageId U1 ++ lit "/") report_key = true
  ∧ startsWith (getUserStorageId U2 ++ lit "/") report_key = false
  ∧ status (response_of foreign1) = 201
  ∧ status (response_of foreign2) = 200
  ∧ json (response_of foreign2) !! "objectKey" = Some (JStr report_key).
Proof.
  split; [repeat split; reflexivity|].
  split; [vm_compute; reflexivity|]. split; [vm_compute; reflexivity|].
  split_and!; reflexivity.
Qed.

(** *** Listing *)

Lemma sort_insert_perm {A} (cmp : A → A → option Z) x l :
  sort_insert cmp x l ≡ₚ x :: l.
Proof.
  induction l as [|y l IH]; simpl; [done|].
  case_match; [done|]. rewrite IH. apply Permutation_swap.
Qed.

Lemma js_sort_perm {A} (cmp : A → A → option Z) l : js_sort cmp l ≡ₚ l.
Proof.
  unfold js_sort. induction l as [|x l IH]; simpl; [done|].
  by rewrite sort_insert_perm, IH.
Qed.

Lemma newest_first_numeric a b :
  has_numeric_seconds a → has_numeric_seconds b →
  (default 0 (newest_first a b) <=? 0) = (seconds_of b <=? seconds_of a).
Proof.
  intros [n Ha] [m Hb]. unfold newest_first, seconds_of, js_minus.
  rewrite Ha, Hb. simpl. apply eq_iff_eq_true. rewrite !Z.leb_le. lia.
Qed.

Lemma sort_insert_sorted x l :
  Forall has_numeric_seconds (x :: l) →
  StronglySorted (λ a b, seconds_of b ≤ seconds_of a) l →
  StronglySorted (λ a b, seconds_of b ≤ seconds_of a) (sort_insert newest_first x l).
Proof.
  intros Hnum Hsorted. apply Forall_cons in Hnum as [Hx Hl].
  induction Hsorted as [|y l Hsorted IH Hy]; simpl.
  - by repeat constructor.
  - apply Forall_cons in Hl as [Hy' Hl].
    rewrite (newest_first_numeric x y Hx Hy').
    destruct (seconds_of y <=? seconds_of x) eqn:Hle.
    + apply Z.leb_le in Hle. constructor; [by constructor|].
      constructor; [done|]. eapply Forall_impl; [exact Hy|].
      intros z Hz. simpl in *. lia.
    + apply Z.leb_gt in Hle. constructor; [by apply IH|].
      rewrite sort_insert_perm. constructor; [lia|done].
Qed.

Lemma js_sort_sorted l :
  Forall has_numeric_seconds l →
  StronglySorted (λ a b, seconds_of b ≤ seconds_of a) (js_sort newest_first l).
Proof.
  induction 1 as [|x l Hx Hl IH]; [constructor|].
  change (js_sort newest_first (x :: l))
    with (sort_insert newest_first x (js_sort newest_first l)).
  apply sort_insert_sorted; [|done]. constructor; [done|].
  by rewrite js_sort_perm.
Qed.

Lemma get_list_files_run env st req caller :
  user req = Some {| uid := caller |} →
  let query := FsQuery [("uid", JStr caller)] None in
  fails env query = None →
  get_list_files req env st
  = (Ok (res_json {[ "uid" := JStr caller;
                     "files" := JArray (List.map JObject (listing st caller)) ]}),
     log query st).
Proof.
  intros Hu query Hquery. unfold get_list_files. unfold_monad.
  rewrite Hu. simpl. fold query. by rewrite Hquery.
Qed.

(** [GET /list-files] answers with exactly the records whose [uid] is the
    verified caller's, each with its id, and changes nothing; when the
    creation seconds of the listed records are numbers, the list is in
    descending order of them. *)
Theorem list_files_own_records
    (env : Env) (st : State) (req : Request) (token uid : jsstring) :
  verified env req token uid →
  fails env (FsQuery [("uid", JStr uid)] None) = None →
  ∃ listed st',
    serve ListFiles req env st
    = (Ok (res_json {[ "uid" := JStr uid;
                       "files" := JArray (List.map JObject listed) ]}), st')
    ∧ (∀ f, f ∈ listed
            ↔ ∃ id doc, files st !! id = Some doc
                        ∧ doc !! "uid" = Some (JStr uid) ∧ f = with_id id doc)
    ∧ (Forall has_numeric_seconds listed →
       StronglySorted (λ a b, seconds_of b ≤ seconds_of a) listed)
    ∧ files st' = files st ∧ objects st' = objects st.
Proof.
  intros Hv Hquery.
  rewrite (serve_verified env st req token uid ListFiles Hv). cbn [handler].
  rewrite (get_list_files_run env _ _ uid); [|done..].
  eexists _, _. split; [reflexivity|]. split_and!; [| |reflexivity..].
  - intros f. unfold listing. cbn [files log]. rewrite js_sort_perm.
    rewrite list_elem_of_In, in_map_iff. split.
    + intros ([id doc] & <- & Hin). apply filter_In in Hin as [Hin Hmatch].
      apply list_elem_of_In, elem_of_map_to_list in Hin.
      exists id, doc. split_and!; [done| |done].
      unfold matches in Hmatch. cbn [forallb snd] in Hmatch.
      by rewrite andb_true_r, bool_decide_eq_true in Hmatch.
    + intros (id & doc & Hdoc & Huid & ->). exists (id, doc). split; [done|].
      apply filter_In. split.
      * by apply list_elem_of_In, elem_of_map_to_list.
      * unfold matches. cbn [forallb snd].
        by rewrite andb_true_r, bool_decide_eq_true.
  - intros Hnum. unfold listing in *. apply js_sort_sorted.
    by rewrite js_sort_perm in Hnum.
Qed.

Lemma list_files_own_records_witness :
  (∃ st', serve ListFiles (list_files "token-of-U2") env one_file
          = (Ok (res_json {[ "uid" := JStr U2; "files" := JArray [] ]}), st'))
  ∧ (∃ listed st',
       serve ListFiles (list_files "token-of-U1") env one_file
       = (Ok (res_json {[ "uid" := JStr U1;
                          "files" := JArray (List.map JObject listed) ]}), st')
       ∧ with_id (lit "f1") report ∈ listed).
Proof.
  split.
  - destruct (list_files_own_records env one_file (list_files "token-of-U2")
                _ U2 (verified_U2 _ _) eq_refl) as (listed & st' & Hrun & Hown & _).
    assert (listed = []) as ->.
    { apply elem_of_nil_inv. intros f [id [doc (Hdoc & Huid & _)]]%Hown.
      cbn [files one_file] in Hdoc.
      apply lookup_singleton_Some in Hdoc as [_ <-].
      by apply report_not_of_U2. }
    by exists st'.
  - destruct (list_files_own_records env one_file (list_files "token-of-U1")
                _ U1 (verified_U1 _ _) eq_refl) as (listed & st' & Hrun & Hown & _).
    exists listed, st'. split; [exact Hrun|]. apply Hown.
    exists (lit "f1"), report. repeat split; reflexivity.
Defined.

(** *** Every answer is a JSON answer *)

Lemma error_body_well_formed code message :
  code ∈ [400; 401; 403; 404; 500] →
  well_formed (res_status_json code (error_body message)).
Proof.
  intros Hcode. right. right. split; [done|].
  exists (lit message). apply lookup_singleton_eq.
Qed.

Ltac solve_well_formed :=
  first
    [ left; reflexivity
    | right; left; reflexivity
    | apply error_body_well_formed; rewrite !elem_of_cons; tauto ].

(** Case analysis on every test a handler makes, innermost first. *)
Ltac case_innermost t :=
  lazymatch t with
  | context [match ?inner with _ => _ end] => case_innermost inner
  | _ => destruct t eqn:?
  end.

Ltac run_handler :=
  unfold_monad;
  repeat lazymatch goal with
         | |- context [match ?tested with _ => _ end] => case_innermost tested
         end;
  eexists _, _; (split; [reflexivity|]).

Lemma handler_well_formed r req env st :
  ∃ resp st', handler r req env st = (Ok resp, st') ∧ well_formed resp.
Proof.
  destruct r; cbn [handler].
  - unfold post_upload_url. unfold_monad.
    destruct (negb _ || negb _); [eexists _, _; split; [done|solve_well_formed]|].
    destruct (user req); [|eexists _, _; split; [done|solve_well_formed]].
    destruct (prop (body req) "fileName");
      try (eexists _, _; split; [done|solve_well_formed]).
    all: simpl; destruct (fails env _);
      eexists _, _; (split; [reflexivity|solve_well_formed]).
  - unfold post_files. run_handler; solve_well_formed.
  - unfold get_list_files. unfold_monad.
    assert (Hcatch : ∀ err,
              well_formed
                (res_status_json 500
                   {[ "error" := js_or (JStr (error_message err))
                                       (JStr (lit "Failed to list files")) ]})).
    { intros err. right. right. split; [rewrite !elem_of_cons; tauto|].
      unfold js_or. case_match; eexists; apply lookup_singleton_eq. }
    destruct (user req); [|by eexists _, _].
    cbn. destruct (fails env _); [by eexists _, _|].
    eexists _, _. split; [done|by left].
  - unfold post_download_url. run_handler; solve_well_formed.
  - unfold delete_files_id. run_handler; solve_well_formed.
Qed.

(** Every request to a protected route is answered, whatever the stores do:
    with 200 or 201, or with an error status and a JSON body that has an
    [error] string. *)
Theorem every_answer_well_formed
    (r : Route) (env : Env) (st : State) (req : Request) :
  ∃ resp st', serve r req env st = (Ok resp, st') ∧ well_formed resp.
Proof.
  destruct (bearer_token req) as [[|c token]|] eqn:Htok;
    [| destruct (identity env (c :: token)) as [uid|] eqn:Hident |].
  2: { assert (Hv : verified env req (c :: token) uid) by done.
       rewrite (serve_verified env st req _ uid r Hv).
       apply handler_well_formed. }
  all: destruct (authMiddleware_unauthenticated env st req (handler r))
         as (message & st' & calls & Hrun & _);
    [ first [ by left; right | by left; left | by right; exists (c :: token) ] | ].
  all: exists (res_status_json 401 (error_body message)), st'; split; [exact Hrun|].
  all: apply error_body_well_formed; rewrite !elem_of_cons; tauto.
Qed.
